(** * NASDAQ-100 volatility dashboard: aggregation and refresh core

    A shallow embedding of [src/components/Dashboard.tsx] (the React
    component: [calculateMetrics], [fetchData] and the mounting effect) and
    of the API route that feeds it ([handler]).

    Modelling conventions.
    - A JavaScript [number] that carries a price is an exact rational
      ([Q]): rounding, NaN and the infinities are outside the model, as in
      the data model of the design (observations are real numbers).
      Numeric results are compared with [==] ([Qeq]); structural facts
      (which elements are selected, which state is kept) with [=].
    - A [Date] is named by its local wall-clock label, in milliseconds
      (calendar day and time of day).  Properties about dates are stated
      on these labels, in local calendar terms -- which day, which time
      of day, which of two instants comes first.  A difference of labels
      is elapsed time only where no daylight-saving change lies between
      them.
    - [useState] cells are the fields of one [State] record and the
      setters are record updates.  The [data] cell can hold [undefined]
      at run time, so it is an [option]. *)

From Stdlib Require Import List ZArith QArith Qminmax Lia Lqa Bool.
Import ListNotations.

Local Open Scope Z_scope.

(** ** JavaScript arrays *)

Module JsArray.

Section Ops.
Context {A B : Type}.

(** [xs.slice(start)]: a negative [start] counts from the end and is
    clamped at the first element; a [start] past the end gives []. *)
Definition slice (start : Z) (xs : list A) : list A :=
  let len := Z.of_nat (length xs) in
  let k := if start <? 0 then Z.max (len + start) 0 else Z.min start len in
  skipn (Z.to_nat k) xs.

(** [xs.reduce(f, init)]: left to right, starting from [init]. *)
Definition reduce (f : B -> A -> B) (init : B) (xs : list A) : B :=
  fold_left f xs init.

(** [xs[i]]: [None] stands for [undefined] (index out of range). *)
Definition get (xs : list A) (i : Z) : option A :=
  if i <? 0 then None else nth_error xs (Z.to_nat i).

(** [xs.map((x, index) => f x index)] *)
Fixpoint mapi_from (f : A -> nat -> B) (index : nat) (xs : list A) : list B :=
  match xs with
  | [] => []
  | x :: rest => f x index :: mapi_from f (S index) rest
  end.

Definition mapi (f : A -> nat -> B) (xs : list A) : list B :=
  mapi_from f 0%nat xs.
End Ops.

End JsArray.

(** ** Numbers *)

Definition number := Q.

(** [x > y] on numbers. *)
Definition gtb (x y : number) : bool := negb (Qle_bool x y).

Module Math.

(** One round of the loop of [Math.max]: the running [highest] is
    replaced when the next argument is greater. *)
Definition max_step (highest x : number) : number :=
  if gtb x highest then x else highest.

Definition min_step (lowest x : number) : number :=
  if gtb lowest x then x else lowest.

(** [Math.max(...xs)].  With at least one argument the loop starting
    from -Infinity takes the first argument in its first round, so it is
    run from there.  With no argument JavaScript answers -Infinity, which
    is no rational: the model answers 0 there, and [calculateMetrics]
    never makes that call (see [slice_nonempty]). *)
Definition max (xs : list number) : number :=
  match xs with
  | [] => 0%Q
  | x :: rest => fold_left max_step rest x
  end.

(** [Math.min(...xs)], likewise (+Infinity with no argument). *)
Definition min (xs : list number) : number :=
  match xs with
  | [] => 0%Q
  | x :: rest => fold_left min_step rest x
  end.

End Math.

(** ** Dates *)

Module Date.

Definition msPerHour : Z := 3600000.
Definition msPerDay : Z := 24 * msPerHour.

(** Midnight that starts the calendar day of [d]. *)
Definition startOfDay (d : Z) : Z := (d / msPerDay) * msPerDay.

(** [d.getHours()] *)
Definition getHours (d : Z) : Z := (d mod msPerDay) / msPerHour.

(** [d.setHours(h, 0, 0, 0)]: same calendar day, at [h]:00:00.000. *)
Definition setHours (h : Z) (d : Z) : Z := startOfDay d + h * msPerHour.

(** [d.setDate(d.getDate() + 1)]: the same time of day, one calendar
    day later. *)
Definition addDay (d : Z) : Z := d + msPerDay.

(** [d.getTime()].  Instants are named by their wall-clock label, so the
    difference of two [getTime] values only serves to name the instant
    that lies that far after the first, as [setTimeout] does; it is not
    read as a number of elapsed milliseconds. *)
Definition getTime (d : Z) : Z := d.

End Date.

(** ** Data model *)

(** [interface DailyData].  [date] is the instant (in milliseconds) whose
    ISO-8601 rendering the string field holds. *)
Record DailyData := mkDailyData {
  date : Z;
  high : number;
  low : number;
  volatility : number
}.

(** [interface Metrics] *)
Record Metrics := mkMetrics {
  current : number;
  avg7d : number;
  avg30d : number;
  max7d : number;
  max30d : number;
  avg100d : number;
  min7d : number;
  min30d : number
}.

(** The [useState] cells of [Dashboard] that the core reads and writes. *)
Record State := mkState {
  data : option (list DailyData);
  metrics : Metrics;
  lastUpdateTime : Z;
  nextUpdateTime : Z
}.

Definition setData (v : option (list DailyData)) (st : State) : State :=
  mkState v (metrics st) (lastUpdateTime st) (nextUpdateTime st).

Definition setMetrics (m : Metrics) (st : State) : State :=
  mkState (data st) m (lastUpdateTime st) (nextUpdateTime st).

Definition setLastUpdateTime (t : Z) (st : State) : State :=
  mkState (data st) (metrics st) t (nextUpdateTime st).

Definition setNextUpdateTime (t : Z) (st : State) : State :=
  mkState (data st) (metrics st) (lastUpdateTime st) t.

(** The initial value of the [metrics] cell. *)
Definition initialMetrics : Metrics :=
  mkMetrics 0%Q 0%Q 0%Q 0%Q 0%Q 0%Q 0%Q 0%Q.

(** The state at mount: no data, zero metrics, and one clock reading for
    each timestamp. *)
Definition initialState (now now' : Z) : State :=
  mkState (Some []) initialMetrics now now'.

(** ** The aggregator *)

Definition add (a b : number) : number := (a + b)%Q.

(** Division of a number by a non-negative integer (a literal or an array
    length). *)
Definition divn (a : number) (n : nat) : number :=
  (a / inject_Z (Z.of_nat n))%Q.

(** [calculateMetrics].  The result is the argument handed to
    [setMetrics]; [None] is the bare [return] of the guard on the empty
    series, taken before anything is computed.  Reading the last element
    cannot give [undefined] past the guard ([last_index_defined]); the
    0 of that branch is never produced. *)
Definition calculateMetrics (stockData : list DailyData) : option Metrics :=
  if (length stockData =? 0)%nat then None
  else
    let volatilities := map volatility stockData in
    let last7 := JsArray.slice (-7) volatilities in
    let last30 := JsArray.slice (-30) volatilities in
    let last100 := JsArray.slice (-100) volatilities in
    Some {|
      current :=
        match JsArray.get volatilities (Z.of_nat (length volatilities) - 1) with
        | Some v => v
        | None => 0%Q
        end;
      avg7d := divn (JsArray.reduce add 0%Q last7) 7;
      avg30d := divn (JsArray.reduce add 0%Q last30) 30;
      max7d := Math.max last7;
      max30d := Math.max last30;
      avg100d := divn (JsArray.reduce add 0%Q last100) (length last100);
      min7d := Math.min last7;
      min30d := Math.min last30
    |}.

(** The effect of a call of [calculateMetrics] on the component state. *)
Definition run_calculateMetrics (stockData : list DailyData) (st : State)
  : State :=
  match calculateMetrics stockData with
  | None => st
  | Some m => setMetrics m st
  end.

(** ** The refresh step *)

(** The 05:00 computation that [fetchData] (lines 96-100) and the mounting
    effect (lines 111-115) both carry out: a fresh date is [created], set
    to 05:00 of its day, and moved to the next day when the clock, read
    once more ([checked]), shows an hour of 5 or later. *)
Definition next5am (created checked : Z) : Z :=
  let d := Date.setHours 5 created in
  if 5 <=? Date.getHours checked then Date.addDay d else d.

(** What the two awaited calls of [fetchData] come to. *)
Inductive FetchResult :=
| FetchRejected                          (* [fetch] rejects: no response *)
| JsonRejected                           (* [response.json()] rejects, or
                                            [result.data] cannot be read *)
| Parsed (result_data : option (list DailyData)).
                                         (* [result.data]; [None] is [undefined] *)

(** [fetchData], given the outcome of the request and the three clock
    readings of its body ([now] for [setLastUpdateTime], then [created] and
    [checked] as in [next5am]).  Whatever is thrown inside [try] ends the
    body there: [catch] only logs, and the updates already made stay. *)
Definition fetchData (r : FetchResult) (now created checked : Z) (st : State)
  : State :=
  match r with
  | FetchRejected => st
  | JsonRejected => st
  | Parsed result_data =>
      let st1 := setData result_data st in
      match result_data with
      | None => st1            (* [stockData.length] of [undefined] throws *)
      | Some stockData =>
          let st2 := run_calculateMetrics stockData st1 in
          let st3 := setLastUpdateTime now st2 in
          setNextUpdateTime (next5am created checked) st3
      end
  end.

(** ** The API route *)

Module Api.

(** The part of [YahooFinanceResponse] that [handler] reads:
    [chart.result[0].timestamp] and the two arrays of
    [chart.result[0].indicators.quote[0]]. *)
Record YahooFinanceResponse := mkChart {
  timestamp : list Z;
  quote_high : list number;
  quote_low : list number
}.

(** The value of a numeric expression of the handler: [None] is
    [undefined] (an index past the end of an array) or the NaN that
    arithmetic on it gives. *)
Definition sub (a b : option number) : option number :=
  match a, b with
  | Some x, Some y => Some (x - y)%Q
  | _, _ => None
  end.

(** One element of the [data] array of the response. *)
Record Row := mkRow {
  row_date : Z;
  row_volatility : option number;
  row_high : option number;
  row_low : option number
}.

(** Dates that [toISOString] renders; it throws on the others. *)
Definition validTime (ms : Z) : bool := Z.abs ms <=? 8640000000000000.

Definition rows (c : YahooFinanceResponse) : list Row :=
  JsArray.mapi
    (fun timestamp index =>
       let high := nth_error (quote_high c) index in
       let low := nth_error (quote_low c) index in
       {| row_date := timestamp * 1000;
          row_volatility := sub high low;
          row_high := high;
          row_low := low |})
    (timestamp c).

(** What [axios.get] comes to. *)
Inductive Upstream :=
| RequestFailed                        (* [axios.get] rejects *)
| UnexpectedShape                      (* [chart.result[0]] cannot be read *)
| Chart (c : YahooFinanceResponse).

Inductive Response :=
| Status200 (data : list Row)
| Status500.                           (* body [{ error: ... }] *)

Definition handler (u : Upstream) : Response :=
  match u with
  | RequestFailed => Status500
  | UnexpectedShape => Status500
  | Chart c =>
      if forallb (fun t => validTime (t * 1000)) (timestamp c)
      then Status200 (rows c)
      else Status500
  end.

(** A row as the component reads it, when its three numbers are
    numbers. *)
Definition decodeRow (r : Row) : option DailyData :=
  match row_high r, row_low r, row_volatility r with
  | Some h, Some l, Some v => Some (mkDailyData (row_date r) h l v)
  | _, _, _ => None
  end.

(** [result.data] of the parsed body: absent from the error body. *)
Definition body_data (resp : Response) : option (list Row) :=
  match resp with
  | Status200 d => Some d
  | Status500 => None
  end.

End Api.

(** ** The mounting effect *)

Module Scheduler.

(** Timers and calls of one mounted component: the deadlines of the
    armed [setTimeout(fetchData, ...)] timers, and the instants at which
    [fetchData] has been called, oldest first. *)
Record t := mk {
  pending : list Z;
  calls : list Z
}.

(** The timers a run of [fetchData] arms: its body has no
    [setTimeout]. *)
Definition armedByFetchData (now : Z) : list Z := [].

(** The body of the effect, run once at mount (its dependency
    [fetchData] never changes): [fetchData()] is called, then one timer
    is armed for the next 05:00.  [now + msUntil5am] names the instant at
    which the timer fires: the one whose wall clock shows that 05:00. *)
Definition useEffect (now created : Z) : t :=
  let msUntil5am :=
    Date.getTime (next5am created now) - Date.getTime now in
  {| pending := armedByFetchData now ++ [now + msUntil5am];
     calls := [now] |}.

(** The timers that come due up to [until] fire in turn; each calls
    [fetchData]. *)
Fixpoint run (fuel : nat) (until : Z) (s : t) : t :=
  match fuel with
  | O => s
  | S fuel' =>
      match pending s with
      | [] => s
      | d :: rest =>
          if d <=? until
          then run fuel' until
                 {| pending := rest ++ armedByFetchData d;
                    calls := calls s ++ [d] |}
          else s
      end
  end.

(** The cleanup of the effect: [clearTimeout(timer)]. *)
Definition cleanup (s : t) : t := {| pending := []; calls := calls s |}.

End Scheduler.

(** ** Vocabulary of the properties *)

(** The last [k] elements of a sequence (all of it when it is shorter). *)
Definition trailing {A : Type} (k : nat) (xs : list A) : list A :=
  skipn (length xs - k) xs.

(** The sum of a sequence of numbers. *)
Definition total (xs : list number) : number :=
  fold_right Qplus 0%Q xs.

Definition is_minimum (lo : number) (xs : list number) : Prop :=
  In lo xs /\ forall x, In x xs -> (lo <= x)%Q.

Definition is_maximum (hi : number) (xs : list number) : Prop :=
  In hi xs /\ forall x, In x xs -> (x <= hi)%Q.

(** The series of the worked example of the design: three days with
    ranges 10, 15 and 5. *)
Definition threeDays : list DailyData :=
  [ mkDailyData 0 100 90 10;
    mkDailyData 86400000 110 95 15;
    mkDailyData 172800000 105 100 5 ]%Q.

(** Time elapsed since the midnight of the calendar day of [t]. *)
Definition timeOfDay (t : Z) : Z := t mod Date.msPerDay.

Definition fiveOClock : Z := 5 * Date.msPerHour.

(** The instant [h] hours into calendar day number [day]. *)
Definition atHour (day h : Z) : Z := day * Date.msPerDay + h * Date.msPerHour.

(** A session that holds three observations, last refreshed at 06:00 of
    day 0 and due at 05:00 of day 1. *)
Definition threeDayState : State :=
  mkState (Some threeDays) initialMetrics (atHour 0 6) (atHour 1 5).

(** One refresh step of a session: the outcome of its request and the
    clock readings of its run of [fetchData]. *)
Record Step := mkStep {
  outcome : FetchResult;
  readNow : Z;
  readCreated : Z;
  readChecked : Z
}.

(** The state after the refresh steps of a session, oldest first. *)
Definition runSteps (steps : list Step) (st : State) : State :=
  fold_left
    (fun s step =>
       fetchData (outcome step) (readNow step) (readCreated step)
                 (readChecked step) s)
    steps st.

(** The outcomes on which the aggregator goes through: a body whose
    [data] is a non-empty series. *)
Definition aggregated (r : FetchResult) : bool :=
  match r with
  | Parsed (Some (_ :: _)) => true
  | _ => false
  end.

(** A fetch attempt fails when it brings no series: [fetch] or
    [response.json()] rejects, or the parsed body has no [data] (the error
    body of the route). *)
Definition failed (r : FetchResult) : bool :=
  match r with
  | Parsed (Some _) => false
  | _ => true
  end.

(** How a call of [calculateMetrics] ends for its caller.  Neither exit
    of the function returns a value (the guarded [return;] and the end of
    the body), and on an array nothing in it throws; only reading
    [length] of [undefined] does. *)
Inductive Completion := ReturnsUndefined | ThrowsTypeError.

Definition calculateMetrics_call (arg : option (list DailyData))
  : Completion :=
  match arg with
  | None => ThrowsTypeError
  | Some _ => ReturnsUndefined
  end.

(** ** The chart *)

(** [type TimeRange]: '7d', '30d' or '100d'. *)
Inductive TimeRange := Range7d | Range30d | Range100d.

(** The initial value of the [timeRange] cell. *)
Definition initialTimeRange : TimeRange := Range30d.

(** The [days] of [getChartData]. *)
Definition daysOf (timeRange : TimeRange) : Z :=
  match timeRange with
  | Range7d => 7
  | Range30d => 30
  | Range100d => 100
  end.

(** [getChartData], with the [timeRange] cell as an argument.  [None]
    is the TypeError of [data.slice] when the [data] cell holds
    [undefined]. *)
Definition getChartData (timeRange : TimeRange) (st : State)
  : option (list DailyData) :=
  match data st with
  | None => None
  | Some series => Some (JsArray.slice (- daysOf timeRange) series)
  end.

(** ** From the route to the component *)

(** The rows of a body as the component reads them; [None] when a row
    holds something that is no number, which has no counterpart in
    [DailyData]. *)
Fixpoint decodeRows (rs : list Api.Row) : option (list DailyData) :=
  match rs with
  | [] => Some []
  | r :: rest =>
      match Api.decodeRow r, decodeRows rest with
      | Some d, Some ds => Some (d :: ds)
      | _, _ => None
      end
  end.

(** What [fetch] and [response.json()] come to when the route answers
    [resp]: a body is parsed in both cases ([fetch] does not reject on
    status 500), and the error body has no [data]. *)
Definition deliver (resp : Api.Response) : option FetchResult :=
  match Api.body_data resp with
  | None => Some (Parsed None)
  | Some rs =>
      match decodeRows rs with
      | Some ds => Some (Parsed (Some ds))
      | None => None
      end
  end.

(** ** Vocabulary of sessions *)

(** The non-empty series received last in a session, if any. *)
Definition lastSeries (steps : list Step) : option (list DailyData) :=
  fold_left
    (fun acc step =>
       match outcome step with
       | Parsed (Some (d :: rest)) => Some (d :: rest)
       | _ => acc
       end)
    steps None.

(** A step whose three clock readings are one instant. *)
Definition instantStep (step : Step) : Prop :=
  readCreated step = readNow step /\ readChecked step = readNow step.

(** A chart of the upstream whose three arrays have one length and whose
    timestamps are dates. *)
Definition alignedChart (c : Api.YahooFinanceResponse) : Prop :=
  length (Api.quote_high c) = length (Api.timestamp c) /\
  length (Api.quote_low c) = length (Api.timestamp c) /\
  forallb (fun t => Api.validTime (t * 1000)) (Api.timestamp c) = true.

(** A chart of two trading days. *)
Definition twoDayChart : Api.YahooFinanceResponse :=
  Api.mkChart [1700000000; 1700086400] [100; 110]%Q [90; 95]%Q.

(** ** Arrays: slices and sums *)

Section SliceFacts.
Context {A : Type}.
Implicit Types xs ys : list A.

Lemma trailing_length k xs :
  length (trailing k xs) = Nat.min k (length xs).
Proof. unfold trailing. rewrite length_skipn. lia. Qed.

Lemma trailing_suffix k xs :
  firstn (length xs - k) xs ++ trailing k xs = xs.
Proof. unfold trailing. apply firstn_skipn. Qed.

Lemma trailing_min k xs :
  trailing (Nat.min (length xs) k) xs = trailing k xs.
Proof.
  unfold trailing.
  destruct (Nat.le_ge_cases (length xs) k) as [Hle | Hge].
  - rewrite Nat.min_l by assumption.
    replace (length xs - k)%nat with 0%nat by lia.
    replace (length xs - length xs)%nat with 0%nat by lia.
    reflexivity.
  - rewrite Nat.min_r by assumption. reflexivity.
Qed.

(** [xs.slice(-k)] is the last [k] elements, for a positive [k]. *)
Lemma slice_neg_trailing (k : nat) xs :
  (0 < k)%nat ->
  JsArray.slice (- Z.of_nat k) xs = trailing k xs.
Proof.
  intros Hk. unfold JsArray.slice, trailing.
  assert (Hneg : (- Z.of_nat k <? 0) = true) by (apply Z.ltb_lt; lia).
  rewrite Hneg. f_equal. lia.
Qed.

Lemma trailing_app k xs ys :
  (k <= length ys)%nat ->
  trailing k (xs ++ ys) = trailing k ys.
Proof.
  intros Hk. unfold trailing. rewrite length_app, skipn_app.
  replace (length xs + length ys - k - length xs)%nat
    with (length ys - k)%nat by lia.
  rewrite skipn_all2 by lia. reflexivity.
Qed.

Lemma trailing_nonempty k xs :
  (0 < k)%nat -> xs <> [] -> trailing k xs <> [].
Proof.
  intros Hk Hxs Hnil.
  apply (f_equal (@length A)) in Hnil.
  rewrite trailing_length in Hnil. simpl in Hnil.
  destruct xs as [| x xs']; [congruence | simpl in Hnil; lia].
Qed.

(** Past the guard of [calculateMetrics] the index of the last element
    is in range. *)
Lemma last_index_defined xs (dflt : A) :
  xs <> [] ->
  JsArray.get xs (Z.of_nat (length xs) - 1) = Some (last xs dflt).
Proof.
  intros Hxs. unfold JsArray.get.
  destruct (exists_last Hxs) as [front [x Heq]]. subst xs.
  rewrite last_last, length_app. simpl length.
  assert (Hpos : (Z.of_nat (length front + 1) - 1 <? 0) = false)
    by (apply Z.ltb_ge; lia).
  rewrite Hpos.
  replace (Z.to_nat (Z.of_nat (length front + 1) - 1)) with (length front)
    by lia.
  rewrite nth_error_app2 by lia.
  rewrite Nat.sub_diag. reflexivity.
Qed.
End SliceFacts.

Lemma last_app_right {A : Type} (xs ys : list A) (dflt : A) :
  ys <> [] -> last (xs ++ ys) dflt = last ys dflt.
Proof.
  intros Hys. destruct (exists_last Hys) as [front [y ->]].
  rewrite app_assoc, !last_last. reflexivity.
Qed.

Lemma last_of_map {A B : Type} (f : A -> B) (xs : list A) (dflt : A) :
  last (map f xs) (f dflt) = f (last xs dflt).
Proof.
  induction xs as [| x xs IH]; [reflexivity |].
  destruct xs as [| y ys]; [reflexivity |].
  change (last (map f (y :: ys)) (f dflt) = f (last (y :: ys) dflt)).
  exact IH.
Qed.

(** [reduce((a, b) => a + b, init)] adds the sum of the array to [init]. *)
Lemma reduce_add_total (xs : list number) (init : number) :
  (JsArray.reduce add init xs == init + total xs)%Q.
Proof.
  unfold JsArray.reduce, number in *. revert init.
  induction xs as [| x xs IH]; intros init; simpl.
  - ring.
  - rewrite IH. unfold add. ring.
Qed.

Lemma reduce_sum (xs : list number) :
  (JsArray.reduce add 0 xs == total xs)%Q.
Proof. rewrite reduce_add_total. unfold number in *. ring. Qed.

(** The slices of [calculateMetrics] are never empty past its guard. *)
Lemma slice_nonempty (k : nat) (xs : list number) :
  (0 < k)%nat -> xs <> [] -> JsArray.slice (- Z.of_nat k) xs <> [].
Proof.
  intros Hk Hxs. rewrite slice_neg_trailing by assumption.
  now apply trailing_nonempty.
Qed.

(** The snapshot that [calculateMetrics] builds past its guard, over the
    trailing slices. *)
Lemma calculateMetrics_nonempty (stockData : list DailyData)
      (dflt : DailyData) :
  stockData <> [] ->
  let vols := map volatility stockData in
  calculateMetrics stockData =
    Some {|
      current := volatility (last stockData dflt);
      avg7d := divn (JsArray.reduce add 0%Q (trailing 7 vols)) 7;
      avg30d := divn (JsArray.reduce add 0%Q (trailing 30 vols)) 30;
      max7d := Math.max (trailing 7 vols);
      max30d := Math.max (trailing 30 vols);
      avg100d := divn (JsArray.reduce add 0%Q (trailing 100 vols))
                      (length (trailing 100 vols));
      min7d := Math.min (trailing 7 vols);
      min30d := Math.min (trailing 30 vols)
    |}.
Proof.
  intros Hne vols. unfold calculateMetrics.
  assert (Hlen : (length stockData =? 0)%nat = false).
  { apply Nat.eqb_neq. destruct stockData; [congruence | simpl; lia]. }
  assert (Hv : vols <> []).
  { subst vols. destruct stockData; [congruence | simpl; congruence]. }
  rewrite Hlen. fold vols.
  change (-7) with (- Z.of_nat 7).
  change (-30) with (- Z.of_nat 30).
  change (-100) with (- Z.of_nat 100).
  rewrite !slice_neg_trailing by lia.
  rewrite (last_index_defined vols (volatility dflt) Hv).
  subst vols. rewrite last_of_map. reflexivity.
Qed.

(** ** The aggregator: averages *)

(** C1.  For every non-empty series, [avg7d] is the sum of the trailing
    min(N,7) volatilities divided by the constant 7, [avg30d] the sum of
    the trailing min(N,30) volatilities divided by the constant 30, and
    [avg100d] the sum of the trailing min(N,100) volatilities divided by
    the number of elements of that slice.  In particular a series of
    length 3 with volatilities 10, 15, 5 has [avg7d] = 30/7 and
    [avg100d] = 30/3 = 10. *)
Theorem calculateMetrics_averages :
  (forall stockData : list DailyData,
      stockData <> [] ->
      exists m, calculateMetrics stockData = Some m /\
        let N := length stockData in
        let vols := map volatility stockData in
        let slice100 := trailing (Nat.min N 100) vols in
        (avg7d m == total (trailing (Nat.min N 7) vols) / 7)%Q /\
        (avg30d m == total (trailing (Nat.min N 30) vols) / 30)%Q /\
        (avg100d m ==
           total slice100 / inject_Z (Z.of_nat (length slice100)))%Q /\
        length slice100 = Nat.min N 100)
  /\
  (forall stockData : list DailyData,
      map volatility stockData = [10; 15; 5]%Q ->
      exists m, calculateMetrics stockData = Some m /\
        (avg7d m == 30 / 7)%Q /\
        (avg100d m == 30 / 3)%Q /\
        (avg100d m == 10)%Q).
Proof.
  split.
  - intros stockData Hne.
    pose proof (calculateMetrics_nonempty stockData (mkDailyData 0 0 0 0)%Q Hne)
      as Hm.
    cbv zeta in Hm. eexists. split; [exact Hm |].
    cbv zeta. cbn [avg7d avg30d avg100d].
    rewrite <- (length_map volatility stockData).
    rewrite !trailing_min.
    unfold divn. rewrite !reduce_sum.
    repeat split; try reflexivity.
    rewrite trailing_length. apply Nat.min_comm.
  - intros stockData Hvols.
    assert (Hne : stockData <> []).
    { intros ->. discriminate Hvols. }
    pose proof (calculateMetrics_nonempty stockData (mkDailyData 0 0 0 0)%Q Hne)
      as Hm.
    cbv zeta in Hm. rewrite Hvols in Hm.
    eexists. split; [exact Hm |].
    cbn [avg7d avg100d]. repeat split; vm_compute; reflexivity.
Qed.

Lemma calculateMetrics_averages_witness :
  threeDays <> [] /\
  exists m, calculateMetrics threeDays = Some m /\
    (avg7d m == total [10; 15; 5] / 7)%Q /\
    (avg30d m == total [10; 15; 5] / 30)%Q /\
    (avg100d m == total [10; 15; 5] / 3)%Q.
Proof.
  assert (Hne : threeDays <> []) by discriminate.
  split; [exact Hne |].
  destruct (proj1 calculateMetrics_averages threeDays Hne)
    as [m [Hm [H7 [H30 [H100 _]]]]].
  exists m. split; [exact Hm |].
  repeat split; assumption.
Defined.

(** C6.  For every non-empty series, [current] is the volatility of the
    last element of the series. *)
Theorem calculateMetrics_current (stockData : list DailyData)
    (dflt : DailyData) :
  stockData <> [] ->
  exists m, calculateMetrics stockData = Some m /\
    current m = volatility (last stockData dflt).
Proof.
  intros Hne.
  pose proof (calculateMetrics_nonempty stockData dflt Hne) as Hm.
  cbv zeta in Hm. eexists. split; [exact Hm | reflexivity].
Qed.

Lemma calculateMetrics_current_witness :
  threeDays <> [] /\
  exists m, calculateMetrics threeDays = Some m /\ current m = 5%Q.
Proof.
  assert (Hne : threeDays <> []) by discriminate.
  split; [exact Hne |].
  exact (calculateMetrics_current threeDays (mkDailyData 0 0 0 0)%Q Hne).
Defined.

(** ** The aggregator: extrema *)

Lemma gtb_true (x y : number) : gtb x y = true -> (y < x)%Q.
Proof.
  unfold gtb. intros H. apply negb_true_iff in H.
  apply Qnot_le_lt. intros Hle.
  apply Qle_bool_iff in Hle. congruence.
Qed.

Lemma gtb_false (x y : number) : gtb x y = false -> (x <= y)%Q.
Proof.
  unfold gtb. intros H. apply negb_false_iff in H.
  now apply Qle_bool_iff.
Qed.

(** The loop of [Math.max] ends on an argument that no argument
    exceeds. *)
Lemma max_loop_spec (rest : list number) (highest : number) :
  is_maximum (fold_left Math.max_step rest highest) (highest :: rest).
Proof.
  revert highest.
  induction rest as [| x rest IH]; intros highest.
  - split; [now left |].
    intros y [<- | []]. apply Qle_refl.
  - cbn [fold_left]. destruct (IH (Math.max_step highest x)) as [Hin Hub].
    unfold Math.max_step in *.
    destruct (gtb x highest) eqn:Hcmp.
    + apply gtb_true in Hcmp. split.
      * destruct Hin as [<- | Hin]; [right; now left | right; now right].
      * intros y [<- | [<- | Hy]].
        -- apply Qle_trans with x; [now apply Qlt_le_weak |].
           apply Hub. now left.
        -- apply Hub. now left.
        -- apply Hub. now right.
    + apply gtb_false in Hcmp. split.
      * destruct Hin as [<- | Hin]; [now left | right; now right].
      * intros y [<- | [<- | Hy]].
        -- apply Hub. now left.
        -- apply Qle_trans with highest; [assumption |].
           apply Hub. now left.
        -- apply Hub. now right.
Qed.

Lemma min_loop_spec (rest : list number) (lowest : number) :
  is_minimum (fold_left Math.min_step rest lowest) (lowest :: rest).
Proof.
  revert lowest.
  induction rest as [| x rest IH]; intros lowest.
  - split; [now left |].
    intros y [<- | []]. apply Qle_refl.
  - cbn [fold_left]. destruct (IH (Math.min_step lowest x)) as [Hin Hlb].
    unfold Math.min_step in *.
    destruct (gtb lowest x) eqn:Hcmp.
    + apply gtb_true in Hcmp. split.
      * destruct Hin as [<- | Hin]; [right; now left | right; now right].
      * intros y [<- | [<- | Hy]].
        -- apply Qle_trans with x; [| now apply Qlt_le_weak].
           apply Hlb. now left.
        -- apply Hlb. now left.
        -- apply Hlb. now right.
    + apply gtb_false in Hcmp. split.
      * destruct Hin as [<- | Hin]; [now left | right; now right].
      * intros y [<- | [<- | Hy]].
        -- apply Hlb. now left.
        -- apply Qle_trans with lowest; [| assumption].
           apply Hlb. now left.
        -- apply Hlb. now right.
Qed.

Lemma Math_max_spec (xs : list number) :
  xs <> [] -> is_maximum (Math.max xs) xs.
Proof.
  destruct xs as [| x rest]; [congruence | intros _].
  apply max_loop_spec.
Qed.

Lemma Math_min_spec (xs : list number) :
  xs <> [] -> is_minimum (Math.min xs) xs.
Proof.
  destruct xs as [| x rest]; [congruence | intros _].
  apply min_loop_spec.
Qed.

(** A minimum and a maximum of one sequence bracket every minimum and
    maximum of it. *)
Lemma extrema_bracket (xs : list number) (mn mx lo hi : number) :
  is_minimum mn xs -> is_maximum mx xs ->
  is_minimum lo xs -> is_maximum hi xs ->
  (mn <= mx /\ (lo <= mn /\ mn <= hi) /\ (lo <= mx /\ mx <= hi))%Q.
Proof.
  intros [Hmn_in Hmn] [Hmx_in Hmx] [Hlo_in Hlo] [Hhi_in Hhi].
  repeat split; auto.
Qed.

(** C7.  For every series of length N >= 1 and each window W in {7, 30}:
    [maxWd >= minWd], and both lie between the minimum and the maximum of
    the trailing min(N, W) volatilities -- of which [minWd] is a minimum
    and [maxWd] a maximum. *)
Theorem calculateMetrics_extrema (stockData : list DailyData) :
  (1 <= length stockData)%nat ->
  exists m, calculateMetrics stockData = Some m /\
    let N := length stockData in
    let vols := map volatility stockData in
    let slice7 := trailing (Nat.min N 7) vols in
    let slice30 := trailing (Nat.min N 30) vols in
    (is_minimum (min7d m) slice7 /\ is_maximum (max7d m) slice7 /\
     is_minimum (min30d m) slice30 /\ is_maximum (max30d m) slice30) /\
    (forall lo hi, is_minimum lo slice7 -> is_maximum hi slice7 ->
       (min7d m <= max7d m /\
        (lo <= min7d m /\ min7d m <= hi) /\
        (lo <= max7d m /\ max7d m <= hi))%Q) /\
    (forall lo hi, is_minimum lo slice30 -> is_maximum hi slice30 ->
       (min30d m <= max30d m /\
        (lo <= min30d m /\ min30d m <= hi) /\
        (lo <= max30d m /\ max30d m <= hi))%Q).
Proof.
  intros HN.
  assert (Hne : stockData <> []).
  { intros ->. simpl in HN. lia. }
  pose proof (calculateMetrics_nonempty stockData (mkDailyData 0 0 0 0)%Q Hne)
    as Hm.
  cbv zeta in Hm. eexists. split; [exact Hm |].
  cbv zeta. cbn [min7d max7d min30d max30d].
  rewrite <- (length_map volatility stockData).
  rewrite !trailing_min.
  assert (Hv : map volatility stockData <> []).
  { destruct stockData; [congruence | simpl; congruence]. }
  assert (H7 : trailing 7 (map volatility stockData) <> [])
    by (apply trailing_nonempty; [lia | assumption]).
  assert (H30 : trailing 30 (map volatility stockData) <> [])
    by (apply trailing_nonempty; [lia | assumption]).
  pose proof (Math_min_spec _ H7) as Hmin7.
  pose proof (Math_max_spec _ H7) as Hmax7.
  pose proof (Math_min_spec _ H30) as Hmin30.
  pose proof (Math_max_spec _ H30) as Hmax30.
  split; [repeat split; first [apply Hmin7 | apply Hmax7 | apply Hmin30 | apply Hmax30] |].
  split; intros lo hi Hlo Hhi.
  - exact (extrema_bracket _ _ _ _ _ Hmin7 Hmax7 Hlo Hhi).
  - exact (extrema_bracket _ _ _ _ _ Hmin30 Hmax30 Hlo Hhi).
Qed.

Lemma calculateMetrics_extrema_witness :
  (1 <= length threeDays)%nat /\
  is_minimum 5%Q [10; 15; 5]%Q /\ is_maximum 15%Q [10; 15; 5]%Q /\
  exists m, calculateMetrics threeDays = Some m /\
    (min7d m <= max7d m /\
     (5 <= min7d m /\ min7d m <= 15) /\
     (5 <= max7d m /\ max7d m <= 15))%Q.
Proof.
  assert (HN : (1 <= length threeDays)%nat) by (simpl; lia).
  assert (Hlo : is_minimum 5%Q [10; 15; 5]%Q).
  { split; [simpl; tauto |].
    intros x [<- | [<- | [<- | []]]]; unfold Qle; simpl; lia. }
  assert (Hhi : is_maximum 15%Q [10; 15; 5]%Q).
  { split; [simpl; tauto |].
    intros x [<- | [<- | [<- | []]]]; unfold Qle; simpl; lia. }
  split; [exact HN |]. split; [exact Hlo |]. split; [exact Hhi |].
  destruct (calculateMetrics_extrema threeDays HN) as [m [Hm [_ [H7 _]]]].
  exists m. split; [exact Hm |].
  exact (H7 5%Q 15%Q Hlo Hhi).
Defined.

(** ** The aggregator: the empty series and the 100-day horizon *)

(** A call of [calculateMetrics] inside [fetchData] that throws ends the
    body before the update times are set; one that returns lets it go
    on. *)
Lemma fetchData_follows_call (arg : option (list DailyData))
    (now created checked : Z) (st : State) :
  match calculateMetrics_call arg with
  | ThrowsTypeError =>
      fetchData (Parsed arg) now created checked st = setData arg st
  | ReturnsUndefined =>
      lastUpdateTime (fetchData (Parsed arg) now created checked st) = now /\
      nextUpdateTime (fetchData (Parsed arg) now created checked st)
      = next5am created checked
  end.
Proof.
  destruct arg as [stockData |]; cbn [calculateMetrics_call];
    [| reflexivity].
  unfold fetchData, run_calculateMetrics.
  destruct (calculateMetrics stockData); split; reflexivity.
Qed.

(** C8, as stated, fails: called on the empty series by [fetchData] at
    05:00 of day 1, the aggregator does not throw, ends as it ends on the
    three-day series, and its caller goes on to set [lastUpdate] -- no
    condition reaches the caller. *)
Lemma calculateMetrics_empty_signal_counterexample :
  let now := atHour 1 5 in
  ~ (calculateMetrics_call (Some []) = ThrowsTypeError \/
     calculateMetrics_call (Some []) <> calculateMetrics_call (Some threeDays) \/
     lastUpdateTime (fetchData (Parsed (Some [])) now now now threeDayState)
     = lastUpdateTime threeDayState).
Proof.
  intros now [Hthrows | [Hdiffers | Hstops]].
  - discriminate Hthrows.
  - apply Hdiffers. reflexivity.
  - vm_compute in Hstops. discriminate Hstops.
Qed.

(** C8, amended.  Invoked with the empty series, the aggregator returns
    at once, before any arithmetic: no snapshot is built or stored and
    nothing is divided by zero.  It signals no condition: it returns
    [undefined] without throwing, as on every other series, and its
    caller [fetchData] goes on to set [lastUpdate] and [nextUpdate].
    Whenever a snapshot is built, the divisor of [avg100d] is not zero. *)
Theorem calculateMetrics_empty_silent :
  calculateMetrics [] = None /\
  (forall st : State, run_calculateMetrics [] st = st) /\
  calculateMetrics_call (Some []) = ReturnsUndefined /\
  (forall stockData,
      calculateMetrics_call (Some []) = calculateMetrics_call (Some stockData)) /\
  (forall now created checked st,
      let st' := fetchData (Parsed (Some [])) now created checked st in
      lastUpdateTime st' = now /\
      nextUpdateTime st' = next5am created checked) /\
  (forall stockData,
      match calculateMetrics stockData with
      | None => stockData = []
      | Some m =>
          let last100 := JsArray.slice (-100) (map volatility stockData) in
          avg100d m = divn (JsArray.reduce add 0%Q last100) (length last100) /\
          ~ (inject_Z (Z.of_nat (length last100)) == 0)%Q
      end).
Proof.
  split; [reflexivity |]. split; [reflexivity |].
  split; [reflexivity |]. split; [reflexivity |].
  split.
  - intros now created checked st.
    exact (fetchData_follows_call (Some []) now created checked st).
  - intros [| d rest]; [reflexivity |].
    unfold calculateMetrics. cbn [length Nat.eqb].
    cbv zeta. split; [reflexivity |].
    change (-100) with (- Z.of_nat 100).
    assert (Hne : JsArray.slice (- Z.of_nat 100) (map volatility (d :: rest))
                  <> []).
    { apply slice_nonempty; [lia | simpl; congruence]. }
    destruct (JsArray.slice (- Z.of_nat 100) (map volatility (d :: rest)))
      as [| v vs]; [congruence |].
    unfold Qeq. simpl. lia.
Qed.

(** C9.  The snapshot depends only on the last 100 elements: older
    observations in front of a series of length at least 100 change none
    of the eight fields. *)
Theorem calculateMetrics_last100 (older series : list DailyData) :
  (100 <= length series)%nat ->
  calculateMetrics (older ++ series) = calculateMetrics series.
Proof.
  intros Hlen.
  assert (Hs : series <> []).
  { intros ->. simpl in Hlen. lia. }
  assert (Hos : older ++ series <> []).
  { intros Heq. apply app_eq_nil in Heq. tauto. }
  pose (dflt := (mkDailyData 0 0 0 0)%Q).
  rewrite (calculateMetrics_nonempty (older ++ series) dflt Hos).
  rewrite (calculateMetrics_nonempty series dflt Hs).
  cbv zeta. rewrite map_app.
  assert (Hvl : length (map volatility series) = length series)
    by apply length_map.
  rewrite !trailing_app by lia.
  rewrite last_app_right by assumption.
  reflexivity.
Qed.

Lemma calculateMetrics_last100_witness :
  let series := repeat (mkDailyData 0 3 1 2)%Q 100 in
  let older := [mkDailyData 0 50 10 40]%Q in
  (100 <= length series)%nat /\
  calculateMetrics (older ++ series) = calculateMetrics series.
Proof.
  intros series older.
  assert (Hlen : (100 <= length series)%nat).
  { subst series. rewrite repeat_length. lia. }
  split; [exact Hlen |].
  exact (calculateMetrics_last100 older series Hlen).
Defined.

Lemma fetchData_keeps_metrics (r : FetchResult) (now created checked : Z)
    (st : State) :
  aggregated r = false ->
  metrics (fetchData r now created checked st) = metrics st.
Proof.
  destruct r as [| | [[| d rest] |]]; intros Hagg;
    try discriminate Hagg; reflexivity.
Qed.

(** C10.  Invoked with the empty series, the aggregator leaves the stored
    snapshot -- and the rest of the state -- exactly as it was; the
    snapshot is all zeros as long as no aggregation has gone through. *)
Theorem run_calculateMetrics_empty :
  (forall st : State, run_calculateMetrics [] st = st) /\
  (forall now now' : Z, metrics (initialState now now') = initialMetrics) /\
  (forall (now now' : Z) (steps : list Step),
      Forall (fun step => aggregated (outcome step) = false) steps ->
      metrics (runSteps steps (initialState now now'))
      = mkMetrics 0%Q 0%Q 0%Q 0%Q 0%Q 0%Q 0%Q 0%Q).
Proof.
  split; [reflexivity |]. split; [reflexivity |].
  intros now now' steps Hnone.
  change (metrics (runSteps steps (initialState now now'))
          = metrics (initialState now now')).
  generalize (initialState now now') as st.
  induction Hnone as [| step steps Hstep _ IH]; intros st; [reflexivity |].
  unfold runSteps in *. cbn [fold_left].
  rewrite IH. now apply fetchData_keeps_metrics.
Qed.

Lemma run_calculateMetrics_empty_witness :
  let steps := [mkStep (Parsed (Some [])) 10 10 10; mkStep FetchRejected 20 20 20] in
  Forall (fun step => aggregated (outcome step) = false) steps /\
  metrics (runSteps steps (initialState 0 0)) = initialMetrics.
Proof.
  intros steps.
  assert (Hnone : Forall (fun step => aggregated (outcome step) = false) steps).
  { repeat constructor. }
  split; [exact Hnone |].
  exact (proj2 (proj2 run_calculateMetrics_empty) 0 0 steps Hnone).
Defined.

(** ** The next 05:00 *)

Ltac date_arith :=
  cbv [next5am Date.setHours Date.addDay Date.getHours Date.startOfDay
       Date.getTime timeOfDay fiveOClock atHour Date.msPerDay
       Date.msPerHour] in *;
  repeat match goal with
         | |- context [?a <=? ?b] => destruct (Z.leb_spec a b)
         end;
  Z.div_mod_to_equations; lia.

Lemma getHours_ge_5 (t : Z) :
  (5 <=? Date.getHours t) = (fiveOClock <=? timeOfDay t).
Proof.
  destruct (Z.leb_spec fiveOClock (timeOfDay t)); date_arith.
Qed.

(** C5.  For every current time [t], the computed [nextUpdate] is the
    next future instant at 05:00:00.000 local time: 05:00 of the following
    calendar day when [t] is at or after 05:00 of its day, 05:00 of the
    same day otherwise (06:00 gives 05:00 tomorrow, 04:00 gives 05:00
    today). *)
Theorem next5am_is_next_0500 :
  (forall t : Z,
      let n := next5am t t in
      t < n /\
      timeOfDay n = fiveOClock /\
      (forall u, t < u -> timeOfDay u = fiveOClock -> n <= u) /\
      n = if fiveOClock <=? timeOfDay t
          then Date.startOfDay t + Date.msPerDay + fiveOClock
          else Date.startOfDay t + fiveOClock)
  /\
  (forall day : Z,
      next5am (atHour day 6) (atHour day 6) = atHour (day + 1) 5 /\
      next5am (atHour day 4) (atHour day 4) = atHour day 5).
Proof.
  split.
  - intros t n. subst n. repeat split.
    + date_arith.
    + date_arith.
    + intros u Hu H5. date_arith.
    + destruct (Z.leb_spec fiveOClock (timeOfDay t)); date_arith.
  - intros day. split; date_arith.
Qed.

Lemma next5am_is_next_0500_witness :
  let t := atHour 3 6 in
  let u := atHour 5 5 in
  t < u /\ timeOfDay u = fiveOClock /\ next5am t t <= u.
Proof.
  intros t u.
  assert (Hu : t < u) by (vm_compute; reflexivity).
  assert (H5 : timeOfDay u = fiveOClock) by (vm_compute; reflexivity).
  split; [exact Hu |]. split; [exact H5 |].
  destruct (proj1 next5am_is_next_0500 t) as [_ [_ [Hmin _]]].
  exact (Hmin u Hu H5).
Defined.

(** ** The refresh step: failures *)

(** C2, as stated, fails: a rejected fetch at 05:00 of day 1 keeps the
    three observations but leaves [lastUpdate] at 06:00 of day 0 and
    [nextUpdate] at 05:00 of day 1. *)
Lemma fetchData_failure_timestamps_counterexample :
  let now := atHour 1 5 in
  let st' := fetchData FetchRejected now now now threeDayState in
  ~ (data st' = data threeDayState /\
     lastUpdateTime st' = now /\
     nextUpdateTime st' = next5am now now).
Proof.
  intros now st' [_ [Hlast _]].
  vm_compute in Hlast. discriminate Hlast.
Qed.

(** C2, amended.  On every failed attempt -- no response, a body that is
    not JSON, or the error body of the route -- the snapshot, [lastUpdate]
    and [nextUpdate] are left exactly as they were: the two timestamps
    are set exactly when a body with data has been received.  When the
    attempt is rejected before a body is parsed, the whole state, with
    the stored series, is left as it was. *)
Theorem fetchData_failure_keeps_timestamps
    (r : FetchResult) (now created checked : Z) (st : State) :
  let st' := fetchData r now created checked st in
  (failed r = true ->
   lastUpdateTime st' = lastUpdateTime st /\
   nextUpdateTime st' = nextUpdateTime st /\
   metrics st' = metrics st) /\
  (failed r = false ->
   lastUpdateTime st' = now /\
   nextUpdateTime st' = next5am created checked) /\
  (r = FetchRejected \/ r = JsonRejected -> st' = st).
Proof.
  cbv zeta. split; [| split].
  - destruct r as [| | [stockData |]]; intros Hfailed;
      try discriminate Hfailed; repeat split.
  - destruct r as [| | [stockData |]]; intros Hfailed;
      try discriminate Hfailed.
    unfold fetchData, run_calculateMetrics.
    destruct (calculateMetrics stockData); split; reflexivity.
  - intros [-> | ->]; reflexivity.
Qed.

Lemma fetchData_failure_keeps_timestamps_witness :
  let now := atHour 1 5 in
  failed (Parsed None) = true /\
  lastUpdateTime (fetchData (Parsed None) now now now threeDayState)
  = atHour 0 6 /\
  nextUpdateTime (fetchData (Parsed None) now now now threeDayState)
  = atHour 1 5 /\
  fetchData FetchRejected now now now threeDayState = threeDayState.
Proof.
  intros now.
  assert (Hfailed : failed (Parsed None) = true) by reflexivity.
  split; [exact Hfailed |].
  destruct (fetchData_failure_keeps_timestamps
              (Parsed None) now now now threeDayState)
    as [Hkeep _].
  destruct (Hkeep Hfailed) as [Hlast [Hnext _]].
  split; [exact Hlast |]. split; [exact Hnext |].
  destruct (fetchData_failure_keeps_timestamps
              FetchRejected now now now threeDayState)
    as [_ [_ Hsame]].
  exact (Hsame (or_introl eq_refl)).
Defined.

(** The error body of the API route has no [data]: the component stores
    [undefined] over the series before the aggregator throws, and the
    timestamps stay. *)
Lemma fetchData_error_body (now created checked : Z) (st : State) :
  Api.body_data (Api.handler Api.RequestFailed) = None /\
  Api.body_data (Api.handler Api.UnexpectedShape) = None /\
  fetchData (Parsed None) now created checked st = setData None st.
Proof. repeat split. Qed.

(** ** The derived field *)

(** C4, as stated, fails on both counts: the rows that the route answers
    carry a computed volatility, and the component stores a received row
    as it is, whatever its volatility. *)
Lemma volatility_ownership_counterexample :
  let chart := Api.mkChart [1700000000] [100%Q] [90%Q] in
  let payload := [mkDailyData 0 100 90 0]%Q in
  let st' := fetchData (Parsed (Some payload)) 0 0 0 (initialState 0 0) in
  ~ (forall r, In r (Api.rows chart) -> Api.row_volatility r = None) /\
  ~ (forall stored d, data st' = Some stored -> In d stored ->
       (volatility d == high d - low d)%Q).
Proof.
  intros chart payload st'. split.
  - intros Hroute.
    specialize (Hroute _ (or_introl eq_refl)).
    discriminate Hroute.
  - intros Hcore.
    specialize (Hcore payload _ eq_refl (or_introl eq_refl)).
    vm_compute in Hcore. discriminate Hcore.
Qed.

Lemma mapi_from_In {A B : Type} (f : A -> nat -> B) (xs : list A)
    (start : nat) (y : B) :
  In y (JsArray.mapi_from f start xs) -> exists x index, y = f x index.
Proof.
  revert start. induction xs as [| x xs IH]; intros start Hin.
  - destruct Hin.
  - destruct Hin as [<- | Hin].
    + now exists x, start.
    + exact (IH _ Hin).
Qed.

(** C4, amended.  The API route computes volatility = high - low for
    every element it answers, next to date, high and low; the component
    stores the received elements unchanged and reads their volatility
    field. *)
Theorem volatility_computed_by_route :
  (forall c r, In r (Api.rows c) ->
     Api.row_volatility r = Api.sub (Api.row_high r) (Api.row_low r)) /\
  (forall r d, Api.row_volatility r = Api.sub (Api.row_high r) (Api.row_low r) ->
     Api.decodeRow r = Some d ->
     volatility d = (high d - low d)%Q) /\
  (forall payload now created checked st,
     data (fetchData (Parsed (Some payload)) now created checked st)
     = Some payload).
Proof.
  split; [| split].
  - intros c r Hin. unfold Api.rows, JsArray.mapi in Hin.
    apply mapi_from_In in Hin. destruct Hin as [ts [index ->]].
    reflexivity.
  - intros r d Hvol Hdec. unfold Api.decodeRow in Hdec.
    destruct (Api.row_high r) as [h |]; [| discriminate].
    destruct (Api.row_low r) as [l |]; [| discriminate].
    destruct (Api.row_volatility r) as [v |]; [| discriminate].
    injection Hdec as <-. injection Hvol as ->. reflexivity.
  - intros payload now created checked st.
    unfold fetchData, run_calculateMetrics.
    destruct (calculateMetrics payload); reflexivity.
Qed.

Lemma volatility_computed_by_route_witness :
  let chart := Api.mkChart [1700000000] [100%Q] [90%Q] in
  let r := Api.mkRow 1700000000000 (Some (100 - 90)%Q) (Some 100%Q) (Some 90%Q) in
  In r (Api.rows chart) /\
  Api.handler (Api.Chart chart) = Api.Status200 [r] /\
  Api.row_volatility r = Api.sub (Api.row_high r) (Api.row_low r).
Proof.
  intros chart r.
  assert (Hin : In r (Api.rows chart)) by (left; reflexivity).
  split; [exact Hin |]. split; [reflexivity |].
  exact (proj1 volatility_computed_by_route chart r Hin).
Defined.

(** ** The mounting effect: how often it fetches *)

(** C3, on the code.  The effect calls [fetchData] at mount and arms one
    timer for the next 05:00; when that timer has fired nothing is armed
    any more.  Mounted at 06:00 of day 0 and left running until 06:00 of
    day 3, the component has fetched at 06:00 of day 0 and at 05:00 of
    day 1 only; however long it runs it fetches at most twice, and two
    rounds of the timer loop already reach its final state. *)
Theorem useEffect_fetches_at_most_twice :
  (let s := Scheduler.run 10 (atHour 3 6)
              (Scheduler.useEffect (atHour 0 6) (atHour 0 6)) in
   Scheduler.calls s = [atHour 0 6; atHour 1 5] /\
   Scheduler.pending s = [] /\
   ~ In (atHour 2 5) (Scheduler.calls s) /\
   ~ In (atHour 3 5) (Scheduler.calls s))
  /\
  (forall fuel until now created,
      (length (Scheduler.calls
                 (Scheduler.run fuel until (Scheduler.useEffect now created)))
       <= 2)%nat)
  /\
  (forall fuel until now created,
      Scheduler.run (S (S fuel)) until (Scheduler.useEffect now created)
      = Scheduler.run 2 until (Scheduler.useEffect now created)).
Proof.
  split; [| split].
  - cbv zeta. repeat split.
    + intros [H | [H | []]]; vm_compute in H; discriminate H.
    + intros [H | [H | []]]; vm_compute in H; discriminate H.
  - intros fuel until now created. unfold Scheduler.useEffect.
    cbn [Scheduler.armedByFetchData app].
    destruct fuel as [| fuel]; [simpl; lia |].
    cbn [Scheduler.run Scheduler.pending Scheduler.calls].
    destruct (_ <=? until); [| simpl; lia].
    destruct fuel; simpl; lia.
  - intros fuel until now created. unfold Scheduler.useEffect.
    cbn [Scheduler.armedByFetchData app].
    cbn [Scheduler.run Scheduler.pending Scheduler.calls].
    destruct (_ <=? until); reflexivity.
Qed.

(** ** More on trailing slices *)

Section TrailingFacts.
Context {A : Type}.
Implicit Types xs : list A.

Lemma trailing_all k xs : (length xs <= k)%nat -> trailing k xs = xs.
Proof.
  intros Hk. unfold trailing.
  replace (length xs - k)%nat with 0%nat by lia. reflexivity.
Qed.

Lemma trailing_trailing k k' xs :
  (k <= k')%nat -> trailing k (trailing k' xs) = trailing k xs.
Proof.
  intros Hk. unfold trailing at 1 3.
  rewrite trailing_length. unfold trailing.
  rewrite skipn_skipn. f_equal. lia.
Qed.

Lemma In_trailing k xs (x : A) : In x (trailing k xs) -> In x xs.
Proof.
  intros Hin. rewrite <- (trailing_suffix k xs).
  apply in_or_app. now right.
Qed.

Lemma In_trailing_mono k k' xs (x : A) :
  (k <= k')%nat -> In x (trailing k xs) -> In x (trailing k' xs).
Proof.
  intros Hk Hin. rewrite <- (trailing_trailing k k' xs Hk) in Hin.
  exact (In_trailing _ _ _ Hin).
Qed.

Lemma In_last xs (dflt : A) : xs <> [] -> In (last xs dflt) xs.
Proof.
  intros Hxs. destruct (exists_last Hxs) as [front [x ->]].
  rewrite last_last. apply in_or_app. right. now left.
Qed.

Lemma last_trailing k xs (dflt : A) :
  (0 < k)%nat -> xs <> [] -> last (trailing k xs) dflt = last xs dflt.
Proof.
  intros Hk Hxs.
  rewrite <- (trailing_suffix k xs) at 2.
  rewrite last_app_right; [reflexivity |].
  now apply trailing_nonempty.
Qed.
End TrailingFacts.

Lemma calculateMetrics_Some (stockData : list DailyData) (m : Metrics) :
  calculateMetrics stockData = Some m -> stockData <> [].
Proof. intros Hm ->. discriminate Hm. Qed.

Ltac snapshot_of Hm dflt :=
  let Hne := fresh "Hne" in
  let Heq := fresh "Heq" in
  pose proof (calculateMetrics_Some _ _ Hm) as Hne;
  pose proof (calculateMetrics_nonempty _ dflt Hne) as Heq;
  cbv zeta in Heq; rewrite Heq in Hm;
  injection Hm as <-; clear Heq;
  cbn [current avg7d avg30d max7d max30d avg100d min7d min30d].

Lemma volatilities_nonempty (stockData : list DailyData) :
  stockData <> [] -> map volatility stockData <> [].
Proof. destruct stockData; [congruence | simpl; congruence]. Qed.

(** ** The aggregator: how the cards relate *)

(** The 30-day window holds the 7-day window, which holds the current
    value: min30d <= min7d <= current <= max7d <= max30d. *)
Theorem calculateMetrics_windows_nest (stockData : list DailyData)
    (m : Metrics) :
  calculateMetrics stockData = Some m ->
  (min30d m <= min7d m /\ min7d m <= current m /\
   current m <= max7d m /\ max7d m <= max30d m)%Q.
Proof.
  intros Hm. snapshot_of Hm (mkDailyData 0 0 0 0)%Q.
  pose proof (volatilities_nonempty _ Hne) as Hv.
  set (vols := map volatility stockData) in *.
  assert (H7 : trailing 7 vols <> [])
    by (apply trailing_nonempty; [lia | assumption]).
  assert (H30 : trailing 30 vols <> [])
    by (apply trailing_nonempty; [lia | assumption]).
  destruct (Math_min_spec _ H7) as [Hmin7_in Hmin7].
  destruct (Math_max_spec _ H7) as [Hmax7_in Hmax7].
  destruct (Math_min_spec _ H30) as [Hmin30_in Hmin30].
  destruct (Math_max_spec _ H30) as [Hmax30_in Hmax30].
  assert (Hcur : In (volatility (last stockData (mkDailyData 0 0 0 0)%Q))
                    (trailing 7 vols)).
  { rewrite <- last_of_map. fold vols.
    rewrite <- (last_trailing 7 vols) by (lia || assumption).
    now apply In_last. }
  repeat split.
  - apply Hmin30. apply (In_trailing_mono 7 30); [lia | assumption].
  - now apply Hmin7.
  - now apply Hmax7.
  - apply Hmax30. apply (In_trailing_mono 7 30); [lia | assumption].
Qed.

Lemma calculateMetrics_windows_nest_witness :
  exists m, calculateMetrics threeDays = Some m /\
    (min30d m <= min7d m /\ min7d m <= current m /\
     current m <= max7d m /\ max7d m <= max30d m)%Q.
Proof.
  eexists. split; [reflexivity |].
  apply (calculateMetrics_windows_nest threeDays). reflexivity.
Defined.

Lemma inject_length_cons {A : Type} (x : A) (xs : list A) :
  (inject_Z (Z.of_nat (length (x :: xs)))
   == inject_Z (Z.of_nat (length xs)) + 1)%Q.
Proof.
  cbn [length]. rewrite Nat2Z.inj_succ, <- Z.add_1_r, inject_Z_plus.
  reflexivity.
Qed.

Lemma inject_length_pos {A : Type} (xs : list A) :
  xs <> [] -> (0 < inject_Z (Z.of_nat (length xs)))%Q.
Proof.
  intros Hxs. change 0%Q with (inject_Z 0). rewrite <- Zlt_Qlt.
  destruct xs; [congruence | simpl; lia].
Qed.

Lemma total_lower (xs : list number) (lo : number) :
  (forall x, In x xs -> (lo <= x)%Q) ->
  (inject_Z (Z.of_nat (length xs)) * lo <= total xs)%Q.
Proof.
  unfold number in *.
  induction xs as [| x xs IH]; intros Hlo.
  - change (0 * lo <= 0)%Q. lra.
  - rewrite inject_length_cons. cbn [total fold_right].
    fold (total xs).
    assert (Hx : (lo <= x)%Q) by (apply Hlo; now left).
    assert (Hrest : (inject_Z (Z.of_nat (length xs)) * lo <= total xs)%Q)
      by (apply IH; intros y Hy; apply Hlo; now right).
    unfold total in *. lra.
Qed.

(** On a sequence of at most [k] numbers, the window average with the
    fixed divisor [k], multiplied back by [k], is the sum of the
    sequence. *)
Lemma window_times_divisor (vols : list number) (k : nat) :
  (0 < k)%nat -> (length vols <= k)%nat ->
  (inject_Z (Z.of_nat k) * divn (JsArray.reduce add 0 (trailing k vols)) k
   == total vols)%Q.
Proof.
  intros Hk Hle. rewrite (trailing_all k vols Hle).
  unfold divn. rewrite reduce_sum.
  assert (Hkpos : (0 < inject_Z (Z.of_nat k))%Q).
  { change 0%Q with (inject_Z 0). rewrite <- Zlt_Qlt. lia. }
  unfold number in *. field. intros Hz. rewrite Hz in Hkpos.
  exact (Qlt_irrefl _ Hkpos).
Qed.

(** The true mean of a non-empty sequence, multiplied by its length, is
    its sum. *)
Lemma mean_times_length (vols : list number) :
  vols <> [] ->
  (inject_Z (Z.of_nat (length vols))
   * divn (JsArray.reduce add 0 vols) (length vols)
   == total vols)%Q.
Proof.
  intros Hv.
  rewrite <- (trailing_all (length vols) vols) at 2 by lia.
  apply window_times_divisor; [| lia].
  destruct vols; [congruence | simpl; lia].
Qed.



Lemma divn_nonneg (a : number) (k : nat) :
  (0 <= a)%Q -> (0 <= divn a k)%Q.
Proof.
  intros Ha. unfold divn, Qdiv.
  apply Qmult_le_0_compat; [assumption |].
  apply Qinv_le_0_compat.
  change 0%Q with (inject_Z 0). rewrite <- Zle_Qle. lia.
Qed.

Lemma reduce_add_nonneg (xs : list number) :
  (forall x, In x xs -> (0 <= x)%Q) ->
  (0 <= JsArray.reduce add 0 xs)%Q.
Proof.
  intros Hxs. rewrite reduce_sum.
  pose proof (total_lower xs 0%Q Hxs) as Hlow.
  unfold number in *. lra.
Qed.

(** When no observation has a negative volatility (high >= low on every
    day), none of the eight cards is negative; and on a series shorter
    than a window the fixed divisor understates that window's average:
    [avg7d <= avg100d] for N <= 7 and [avg30d <= avg100d] for N <= 30. *)
Theorem calculateMetrics_nonnegative (stockData : list DailyData)
    (m : Metrics) :
  calculateMetrics stockData = Some m ->
  Forall (fun d => (0 <= volatility d)%Q) stockData ->
  (0 <= current m /\ 0 <= avg7d m /\ 0 <= avg30d m /\ 0 <= max7d m /\
   0 <= max30d m /\ 0 <= avg100d m /\ 0 <= min7d m /\ 0 <= min30d m)%Q /\
  ((length stockData <= 7)%nat -> (avg7d m <= avg100d m)%Q) /\
  ((length stockData <= 30)%nat -> (avg30d m <= avg100d m)%Q).
Proof.
  intros Hm Hpos. snapshot_of Hm (mkDailyData 0 0 0 0)%Q.
  pose proof (volatilities_nonempty _ Hne) as Hv.
  assert (Hvols : forall x, In x (map volatility stockData) -> (0 <= x)%Q).
  { intros x Hx. apply in_map_iff in Hx. destruct Hx as [d [<- Hd]].
    rewrite Forall_forall in Hpos. now apply Hpos. }
  rewrite <- (length_map volatility stockData).
  set (vols := map volatility stockData) in *.
  assert (Htr : forall k x, In x (trailing k vols) -> (0 <= x)%Q)
    by (intros k x Hx; apply Hvols; exact (In_trailing _ _ _ Hx)).
  assert (Hne_k : forall k, (0 < k)%nat -> trailing k vols <> [])
    by (intros k Hk; now apply trailing_nonempty).
  assert (H100 : (0 <= divn (JsArray.reduce add 0 (trailing 100 vols))
                         (length (trailing 100 vols)))%Q)
    by apply divn_nonneg, reduce_add_nonneg, Htr.
  assert (Hunder : forall k : nat,
             (0 < k)%nat -> (length vols <= k)%nat -> (length vols <= 100)%nat ->
             (divn (JsArray.reduce add 0 (trailing k vols)) k
              <= divn (JsArray.reduce add 0 (trailing 100 vols))
                      (length (trailing 100 vols)))%Q).
  { intros k Hk Hle Hle100.
    pose proof (window_times_divisor vols k Hk Hle) as Ek.
    pose proof (mean_times_length vols Hv) as EN.
    rewrite (trailing_all 100 vols Hle100) in *.
    set (mean := divn (JsArray.reduce add 0%Q vols) (length vols)) in *.
    assert (HN : (0 < inject_Z (Z.of_nat (length vols)))%Q)
      by now apply inject_length_pos.
    assert (HkN : (inject_Z (Z.of_nat (length vols))
                   <= inject_Z (Z.of_nat k))%Q)
      by (rewrite <- Zle_Qle; lia).
    assert (Hscaled : (inject_Z (Z.of_nat (length vols)) * mean
                       <= inject_Z (Z.of_nat k) * mean)%Q)
      by (apply Qmult_le_compat_r; assumption).
    rewrite EN, <- Ek in Hscaled.
    apply Qmult_le_l in Hscaled; [exact Hscaled |].
    apply Qlt_le_trans with (inject_Z (Z.of_nat (length vols)));
      assumption. }
  split; [| split].
  - repeat split.
    + apply Hvols. rewrite <- last_of_map. now apply In_last.
    + apply divn_nonneg, reduce_add_nonneg, Htr.
    + apply divn_nonneg, reduce_add_nonneg, Htr.
    + apply (Htr 7%nat). apply Math_max_spec, Hne_k. lia.
    + apply (Htr 30%nat). apply Math_max_spec, Hne_k. lia.
    + exact H100.
    + apply (Htr 7%nat). apply Math_min_spec, Hne_k. lia.
    + apply (Htr 30%nat). apply Math_min_spec, Hne_k. lia.
  - intros H7. apply Hunder; lia.
  - intros H30. apply Hunder; lia.
Qed.

Lemma calculateMetrics_nonnegative_witness :
  exists m, calculateMetrics threeDays = Some m /\
    Forall (fun d => (0 <= volatility d)%Q) threeDays /\
    (0 <= min7d m)%Q /\ (avg7d m <= avg100d m)%Q.
Proof.
  eexists. split; [reflexivity |].
  assert (Hpos : Forall (fun d => (0 <= volatility d)%Q) threeDays).
  { repeat constructor; unfold Qle; simpl; lia. }
  split; [exact Hpos |].
  destruct (calculateMetrics_nonnegative threeDays _ eq_refl Hpos)
    as [[_ [_ [_ [_ [_ [_ [Hmin _]]]]]]] [Hunder _]].
  split; [exact Hmin |].
  apply Hunder. simpl. lia.
Defined.

(** ** The chart *)

Lemma map_trailing {A B : Type} (f : A -> B) (k : nat) (xs : list A) :
  map f (trailing k xs) = trailing k (map f xs).
Proof. unfold trailing. rewrite skipn_map, length_map. reflexivity. Qed.

Lemma daysOf_pos (timeRange : TimeRange) :
  daysOf timeRange = Z.of_nat (Z.to_nat (daysOf timeRange)) /\
  (0 < Z.to_nat (daysOf timeRange))%nat.
Proof. destruct timeRange; simpl; lia. Qed.

Lemma getChartData_slice (timeRange : TimeRange) (st : State)
    (series : list DailyData) :
  data st = Some series ->
  getChartData timeRange st
  = Some (trailing (Z.to_nat (daysOf timeRange)) series).
Proof.
  intros Hdata. unfold getChartData. rewrite Hdata.
  destruct (daysOf_pos timeRange) as [Hd Hpos].
  rewrite Hd at 1. rewrite slice_neg_trailing by assumption.
  reflexivity.
Qed.

(** The chart plots the most recent min(N, days) observations of the
    stored series, in their order: the plotted points are a suffix of the
    series, and the whole series when it has no more than [days]
    observations (7, 30 or 100 according to the selected range). *)
Theorem getChartData_recent (timeRange : TimeRange) (st : State)
    (series : list DailyData) :
  data st = Some series ->
  exists chart older,
    getChartData timeRange st = Some chart /\
    series = older ++ chart /\
    length chart = Nat.min (length series) (Z.to_nat (daysOf timeRange)) /\
    (daysOf timeRange = 7 \/ daysOf timeRange = 30 \/ daysOf timeRange = 100) /\
    ((length series <= Z.to_nat (daysOf timeRange))%nat -> chart = series).
Proof.
  intros Hdata.
  exists (trailing (Z.to_nat (daysOf timeRange)) series).
  exists (firstn (length series - Z.to_nat (daysOf timeRange)) series).
  split; [now apply getChartData_slice |].
  split; [symmetry; apply trailing_suffix |].
  split; [rewrite trailing_length; apply Nat.min_comm |].
  split; [destruct timeRange; simpl; tauto |].
  apply trailing_all.
Qed.

Lemma getChartData_recent_witness :
  exists chart older,
    getChartData Range7d threeDayState = Some chart /\
    threeDays = older ++ chart /\ length chart = 3%nat.
Proof.
  destruct (getChartData_recent Range7d threeDayState threeDays eq_refl)
    as [chart [older [Hc [Hsplit [Hlen _]]]]].
  exists chart, older. repeat split; assumption.
Defined.

(** The three ranges nest: the 7-day chart is the last 7 points of the
    30-day chart, which is the last 30 points of the 100-day chart; and
    every range ends on the same, latest observation. *)
Theorem getChartData_ranges_nest (st : State) (series : list DailyData) :
  data st = Some series ->
  exists c7 c30 c100,
    getChartData Range7d st = Some c7 /\
    getChartData Range30d st = Some c30 /\
    getChartData Range100d st = Some c100 /\
    c7 = trailing 7 c30 /\ c30 = trailing 30 c100 /\
    (series <> [] ->
     forall dflt, last c7 dflt = last series dflt /\
                  last c30 dflt = last series dflt /\
                  last c100 dflt = last series dflt).
Proof.
  intros Hdata.
  exists (trailing 7 series), (trailing 30 series), (trailing 100 series).
  split; [exact (getChartData_slice Range7d st series Hdata) |].
  split; [exact (getChartData_slice Range30d st series Hdata) |].
  split; [exact (getChartData_slice Range100d st series Hdata) |].
  split; [symmetry; apply trailing_trailing; lia |].
  split; [symmetry; apply trailing_trailing; lia |].
  intros Hne dflt. rewrite !last_trailing by (lia || assumption).
  repeat split.
Qed.

Lemma getChartData_ranges_nest_witness :
  exists c7 c30,
    getChartData Range7d threeDayState = Some c7 /\
    getChartData Range30d threeDayState = Some c30 /\
    c7 = trailing 7 c30.
Proof.
  destruct (getChartData_ranges_nest threeDayState threeDays eq_refl)
    as [c7 [c30 [c100 [H7 [H30 [_ [Hnest _]]]]]]].
  exists c7, c30. repeat split; assumption.
Defined.

(** After a fetch that delivered a non-empty series, the cards agree with
    the chart: the 7-day (30-day) maximum and minimum cards are the
    maximum and minimum of the volatilities plotted for the 7-day (30-day)
    range, and [avg100d] is the mean of the volatilities plotted for the
    100-day range. *)
Theorem fetchData_cards_match_chart (series : list DailyData)
    (now created checked : Z) (st : State) :
  series <> [] ->
  let st' := fetchData (Parsed (Some series)) now created checked st in
  exists c7 c30 c100,
    getChartData Range7d st' = Some c7 /\
    getChartData Range30d st' = Some c30 /\
    getChartData Range100d st' = Some c100 /\
    is_maximum (max7d (metrics st')) (map volatility c7) /\
    is_minimum (min7d (metrics st')) (map volatility c7) /\
    is_maximum (max30d (metrics st')) (map volatility c30) /\
    is_minimum (min30d (metrics st')) (map volatility c30) /\
    (avg100d (metrics st')
     == total (map volatility c100) / inject_Z (Z.of_nat (length c100)))%Q.
Proof.
  intros Hne st'.
  assert (Hdata : data st' = Some series).
  { subst st'. unfold fetchData, run_calculateMetrics.
    destruct (calculateMetrics series); reflexivity. }
  assert (Hmetrics : Some (metrics st') = calculateMetrics series).
  { subst st'. unfold fetchData, run_calculateMetrics.
    destruct (calculateMetrics series) eqn:Hm; [reflexivity |].
    destruct series; [congruence | discriminate Hm]. }
  exists (trailing 7 series), (trailing 30 series), (trailing 100 series).
  split; [exact (getChartData_slice Range7d st' series Hdata) |].
  split; [exact (getChartData_slice Range30d st' series Hdata) |].
  split; [exact (getChartData_slice Range100d st' series Hdata) |].
  symmetry in Hmetrics. generalize dependent (metrics st'). intros m Hm.
  snapshot_of Hm (mkDailyData 0 0 0 0)%Q.
  pose proof (volatilities_nonempty _ Hne) as Hv.
  rewrite !map_trailing, <- (length_map volatility (trailing 100 series)).
  rewrite map_trailing.
  set (vols := map volatility series) in *.
  assert (Hne_k : forall k, (0 < k)%nat -> trailing k vols <> [])
    by (intros k Hk; now apply trailing_nonempty).
  split; [apply Math_max_spec, Hne_k; lia |].
  split; [apply Math_min_spec, Hne_k; lia |].
  split; [apply Math_max_spec, Hne_k; lia |].
  split; [apply Math_min_spec, Hne_k; lia |].
  unfold divn. rewrite reduce_sum. reflexivity.
Qed.

Lemma fetchData_cards_match_chart_witness :
  let st' := fetchData (Parsed (Some threeDays)) 0 0 0 (initialState 0 0) in
  threeDays <> [] /\
  exists c7, getChartData Range7d st' = Some c7 /\
             is_maximum (max7d (metrics st')) (map volatility c7).
Proof.
  intros st'.
  assert (Hne : threeDays <> []) by discriminate.
  split; [exact Hne |].
  destruct (fetchData_cards_match_chart threeDays 0 0 0 (initialState 0 0) Hne)
    as [c7 [_ [_ [H7 [_ [_ [Hmax _]]]]]]].
  exists c7. split; assumption.
Defined.

(** ** Sessions *)

Lemma fetchData_nonempty_metrics (d : DailyData) (rest : list DailyData)
    (now created checked : Z) (st : State) :
  Some (metrics (fetchData (Parsed (Some (d :: rest))) now created checked st))
  = calculateMetrics (d :: rest).
Proof.
  unfold fetchData, run_calculateMetrics.
  destruct (calculateMetrics (d :: rest)) eqn:Hm; [reflexivity |].
  discriminate Hm.
Qed.

(** The cards follow the last non-empty series: after any sequence of
    refresh steps -- successful, failed, or delivering an empty series --
    the stored snapshot is the aggregate of the last non-empty series
    received, and the snapshot of the starting state when none was. *)
Theorem runSteps_metrics (steps : list Step) (st : State) :
  match lastSeries steps with
  | Some series => Some (metrics (runSteps steps st)) = calculateMetrics series
  | None => metrics (runSteps steps st) = metrics st
  end.
Proof.
  unfold lastSeries, runSteps.
  set (m0 := metrics st).
  assert (Hstart : match @None (list DailyData) with
                   | Some series => Some (metrics st) = calculateMetrics series
                   | None => metrics st = m0
                   end) by reflexivity.
  revert Hstart. generalize (@None (list DailyData)) as acc.
  generalize st as s. clearbody m0.
  induction steps as [| step steps IH]; intros s acc Hrel; [exact Hrel |].
  cbn [fold_left]. apply IH.
  destruct (outcome step) as [| | [[| d rest] |]]; try exact Hrel.
  apply fetchData_nonempty_metrics.
Qed.

(** A fetch that delivers an empty series empties the chart, keeps the
    cards of the previous series, and moves both update times on. *)
Theorem fetchData_empty_series (now created checked : Z) (st : State) :
  let st' := fetchData (Parsed (Some [])) now created checked st in
  metrics st' = metrics st /\
  (forall timeRange, getChartData timeRange st' = Some []) /\
  lastUpdateTime st' = now /\
  nextUpdateTime st' = next5am created checked.
Proof.
  cbv zeta. repeat split.
  intros timeRange. destruct timeRange; reflexivity.
Qed.

(** A fetch that delivers a non-empty series replaces the whole state:
    nothing of the previous series, cards or update times is merged into
    the new state. *)
Theorem fetchData_replaces_state (series : list DailyData)
    (now created checked : Z) (st1 st2 : State) :
  series <> [] ->
  fetchData (Parsed (Some series)) now created checked st1
  = fetchData (Parsed (Some series)) now created checked st2.
Proof.
  intros Hne. unfold fetchData, run_calculateMetrics.
  destruct (calculateMetrics series) eqn:Hm; [reflexivity |].
  destruct series; [congruence | discriminate Hm].
Qed.

Lemma fetchData_replaces_state_witness :
  threeDays <> [] /\
  fetchData (Parsed (Some threeDays)) 5 5 5 threeDayState
  = fetchData (Parsed (Some threeDays)) 5 5 5 (initialState 0 0).
Proof.
  assert (Hne : threeDays <> []) by discriminate.
  split; [exact Hne |].
  exact (fetchData_replaces_state threeDays 5 5 5 threeDayState
           (initialState 0 0) Hne).
Defined.

Lemma next5am_after (t : Z) :
  t < next5am t t /\ timeOfDay (next5am t t) = fiveOClock.
Proof. split; date_arith. Qed.

(** Through a whole session started at mount, when each run of
    [fetchData] reads the clock at one instant: either no data has
    arrived and both update times are still the mount reading, or the
    next update is the next 05:00 of the wall clock after the last
    update -- later than it, and at 05:00:00.000. *)
Theorem runSteps_timestamps (start : Z) (steps : list Step) :
  Forall instantStep steps ->
  let st := runSteps steps (initialState start start) in
  (lastUpdateTime st = start /\ nextUpdateTime st = start) \/
  (nextUpdateTime st = next5am (lastUpdateTime st) (lastUpdateTime st) /\
   lastUpdateTime st < nextUpdateTime st /\
   timeOfDay (nextUpdateTime st) = fiveOClock).
Proof.
  intros Hinst. cbv zeta.
  set (inv := fun st : State =>
    (lastUpdateTime st = start /\ nextUpdateTime st = start) \/
    (nextUpdateTime st = next5am (lastUpdateTime st) (lastUpdateTime st) /\
     lastUpdateTime st < nextUpdateTime st /\
     timeOfDay (nextUpdateTime st) = fiveOClock)).
  assert (Hinit : inv (initialState start start)) by (left; now split).
  change (inv (runSteps steps (initialState start start))).
  revert Hinit. generalize (initialState start start) as st.
  induction Hinst as [| step steps [Hc Hk] _ IH]; intros st Hinv;
    [exact Hinv |].
  unfold runSteps in *. cbn [fold_left]. apply IH.
  rewrite Hc, Hk.
  destruct (outcome step) as [| | [series |]]; try exact Hinv.
  right. destruct (next5am_after (readNow step)) as [Hlater Hfive].
  unfold fetchData, run_calculateMetrics.
  destruct (calculateMetrics series);
    cbn [lastUpdateTime nextUpdateTime setNextUpdateTime setLastUpdateTime
         setMetrics setData]; repeat split; assumption.
Qed.

Lemma runSteps_timestamps_witness :
  let steps := [mkStep (Parsed (Some threeDays)) (atHour 1 5) (atHour 1 5)
                  (atHour 1 5);
                mkStep FetchRejected (atHour 2 5) (atHour 2 5) (atHour 2 5)] in
  Forall instantStep steps /\
  lastUpdateTime (runSteps steps (initialState 0 0)) = atHour 1 5 /\
  nextUpdateTime (runSteps steps (initialState 0 0)) = atHour 2 5.
Proof.
  intros steps.
  assert (Hinst : Forall instantStep steps)
    by (repeat constructor).
  split; [exact Hinst |].
  destruct (runSteps_timestamps 0 steps Hinst) as [[Hlast _] | [Hnext _]].
  - vm_compute in Hlast. discriminate Hlast.
  - split; [reflexivity |]. rewrite Hnext. vm_compute. reflexivity.
Defined.

(** ** The next 05:00 with two clock readings *)



(** ** The mounting effect: its one timer *)

(** Mounted at [now], the effect arms exactly one timer.  Its deadline is
    the next 05:00 of the wall clock after [now] -- today's when [now] is
    before 05:00, tomorrow's otherwise -- and it is the very instant a
    mount fetch shows as next update.  The timer never fires early: up to
    any instant before the deadline the only call of [fetchData] is the
    one of the mount, and from the deadline on there are exactly two. *)
Theorem useEffect_timer (now : Z) :
  exists deadline,
    Scheduler.pending (Scheduler.useEffect now now) = [deadline] /\
    now < deadline /\
    timeOfDay deadline = fiveOClock /\
    deadline = (if fiveOClock <=? timeOfDay now
                then Date.startOfDay now + Date.msPerDay + fiveOClock
                else Date.startOfDay now + fiveOClock) /\
    (forall series st,
        nextUpdateTime (fetchData (Parsed (Some series)) now now now st)
        = deadline) /\
    (forall fuel until,
        Scheduler.calls
          (Scheduler.run (S fuel) until (Scheduler.useEffect now now))
        = if deadline <=? until then [now; deadline] else [now]).
Proof.
  exists (next5am now now).
  assert (Hpend : Scheduler.pending (Scheduler.useEffect now now)
                  = [next5am now now]).
  { unfold Scheduler.useEffect, Date.getTime.
    cbn [Scheduler.pending Scheduler.armedByFetchData app].
    f_equal. lia. }
  split; [exact Hpend |].
  split; [apply next5am_after |].
  split; [apply next5am_after |].
  split.
  { clear Hpend.
    destruct (Z.leb_spec fiveOClock (timeOfDay now)); date_arith. }
  split.
  - intros series st. unfold fetchData, run_calculateMetrics.
    destruct (calculateMetrics series); reflexivity.
  - intros fuel until. cbn [Scheduler.run]. rewrite Hpend.
    destruct (next5am now now <=? until); [| reflexivity].
    destruct fuel; reflexivity.
Qed.

(** Unmounting cancels the timer for good: after the cleanup of the
    effect no call of [fetchData] is added, however long the component's
    timers are left to run. *)
Theorem cleanup_stops_fetching (s : Scheduler.t) (fuel : nat) (until : Z) :
  Scheduler.run fuel until (Scheduler.cleanup s) = Scheduler.cleanup s /\
  Scheduler.calls (Scheduler.run fuel until (Scheduler.cleanup s))
  = Scheduler.calls s /\
  (forall now created,
      Scheduler.calls
        (Scheduler.run fuel until
           (Scheduler.cleanup (Scheduler.useEffect now created)))
      = [now]).
Proof.
  assert (Hrun : forall s', Scheduler.run fuel until (Scheduler.cleanup s')
                            = Scheduler.cleanup s')
    by (intros s'; destruct fuel; reflexivity).
  split; [apply Hrun |].
  split; [rewrite Hrun; reflexivity |].
  intros now created. rewrite Hrun. reflexivity.
Qed.

(** ** The API route: its rows *)

Section MapiFacts.
Context {A B : Type}.
Variable f : A -> nat -> B.

Lemma mapi_from_length (xs : list A) (start : nat) :
  length (JsArray.mapi_from f start xs) = length xs.
Proof.
  revert start. induction xs as [| x xs IH]; intros start; simpl;
    [reflexivity | now rewrite IH].
Qed.

Lemma mapi_from_nth (xs : list A) (start i : nat) :
  nth_error (JsArray.mapi_from f start xs) i
  = option_map (fun x => f x (start + i)%nat) (nth_error xs i).
Proof.
  revert start i. induction xs as [| x xs IH]; intros start i.
  - destruct i; reflexivity.
  - destruct i as [| i]; simpl.
    + now rewrite Nat.add_0_r.
    + rewrite IH. now rewrite Nat.add_succ_r.
Qed.

Lemma mapi_nth (xs : list A) (i : nat) :
  nth_error (JsArray.mapi f xs) i
  = option_map (fun x => f x i) (nth_error xs i).
Proof. unfold JsArray.mapi. now rewrite mapi_from_nth. Qed.
End MapiFacts.

Lemma rows_nth (c : Api.YahooFinanceResponse) (i : nat) :
  nth_error (Api.rows c) i
  = option_map
      (fun t =>
         Api.mkRow (t * 1000)
           (Api.sub (nth_error (Api.quote_high c) i)
                    (nth_error (Api.quote_low c) i))
           (nth_error (Api.quote_high c) i)
           (nth_error (Api.quote_low c) i))
      (nth_error (Api.timestamp c) i).
Proof. unfold Api.rows. now rewrite mapi_nth. Qed.

Lemma rows_length (c : Api.YahooFinanceResponse) :
  length (Api.rows c) = length (Api.timestamp c).
Proof. unfold Api.rows, JsArray.mapi. apply mapi_from_length. Qed.

Lemma decodeRows_nth (rs : list Api.Row) (ds : list DailyData) :
  decodeRows rs = Some ds ->
  length ds = length rs /\
  forall i r, nth_error rs i = Some r ->
    exists d, nth_error ds i = Some d /\ Api.decodeRow r = Some d.
Proof.
  revert ds. induction rs as [| r0 rs IH]; intros ds Hdec.
  - injection Hdec as <-. split; [reflexivity |].
    intros [| i] r Hr; discriminate Hr.
  - cbn [decodeRows] in Hdec.
    destruct (Api.decodeRow r0) as [d0 |] eqn:Hd0; [| discriminate].
    destruct (decodeRows rs) as [ds' |] eqn:Hds; [| discriminate].
    injection Hdec as <-. destruct (IH ds' eq_refl) as [Hlen Hnth].
    split; [simpl; now rewrite Hlen |].
    intros [| i] r Hr.
    + injection Hr as <-. now exists d0.
    + exact (Hnth i r Hr).
Qed.

Lemma decodeRows_all (rs : list Api.Row) :
  (forall r, In r rs -> Api.decodeRow r <> None) ->
  exists ds, decodeRows rs = Some ds.
Proof.
  induction rs as [| r0 rs IH]; intros Hall.
  - now exists [].
  - destruct (IH (fun r Hr => Hall r (or_intror Hr))) as [ds Hds].
    destruct (Api.decodeRow r0) as [d0 |] eqn:Hd0.
    + exists (d0 :: ds). cbn [decodeRows]. now rewrite Hd0, Hds.
    + exfalso. apply (Hall r0); [now left | exact Hd0].
Qed.

Lemma decodeRows_none (rs : list Api.Row) (r : Api.Row) :
  In r rs -> Api.decodeRow r = None -> decodeRows rs = None.
Proof.
  induction rs as [| r0 rs IH]; intros Hin Hnone; [destruct Hin |].
  cbn [decodeRows]. destruct Hin as [-> | Hin].
  - now rewrite Hnone.
  - rewrite (IH Hin Hnone). now destruct (Api.decodeRow r0).
Qed.

(** The route answers status 500 exactly when the upstream request
    fails, its answer has another shape, or a timestamp is no date; in
    every other case it answers 200 with one row per timestamp, in the
    order of the timestamps and dated timestamp * 1000 ms -- whatever
    the price arrays hold. *)
Theorem handler_status (u : Api.Upstream) :
  (Api.handler u = Api.Status500 <->
   u = Api.RequestFailed \/ u = Api.UnexpectedShape \/
   exists c t, u = Api.Chart c /\ In t (Api.timestamp c) /\
               Api.validTime (t * 1000) = false) /\
  (forall rows, Api.handler u = Api.Status200 rows ->
     exists c, u = Api.Chart c /\
       length rows = length (Api.timestamp c) /\
       map Api.row_date rows = map (fun t => t * 1000) (Api.timestamp c)).
Proof.
  split.
  - split.
    + destruct u as [| | c]; intros H; [now left | right; now left |].
      right; right. unfold Api.handler in H.
      destruct (forallb _ (Api.timestamp c)) eqn:Hall; [discriminate H |].
      assert (Hex : existsb (fun t => negb (Api.validTime (t * 1000)))
                      (Api.timestamp c) = true).
      { clear H. induction (Api.timestamp c) as [| t ts IH];
          [discriminate Hall |].
        cbn [forallb existsb] in *.
        destruct (Api.validTime (t * 1000)); [now apply IH | reflexivity]. }
      apply existsb_exists in Hex. destruct Hex as [t [Hin Hbad]].
      exists c, t. repeat split; [assumption |].
      now apply negb_true_iff.
    + intros [-> | [-> | [c [t [-> [Hin Hbad]]]]]]; [reflexivity .. |].
      unfold Api.handler.
      destruct (forallb _ (Api.timestamp c)) eqn:Hall; [| reflexivity].
      rewrite forallb_forall in Hall. specialize (Hall t Hin).
      cbv beta in Hall. congruence.
  - intros rows H. destruct u as [| | c]; [discriminate H .. |].
    exists c. split; [reflexivity |].
    unfold Api.handler in H.
    destruct (forallb _ (Api.timestamp c)); [| discriminate H].
    injection H as <-. split; [apply rows_length |].
    apply nth_error_ext. intros i.
    rewrite !nth_error_map, rows_nth.
    destruct (nth_error (Api.timestamp c) i); reflexivity.
Qed.

Lemma handler_status_witness :
  exists c, Api.Chart twoDayChart = Api.Chart c /\
    length (Api.rows twoDayChart) = length (Api.timestamp c) /\
    map Api.row_date (Api.rows twoDayChart)
    = [1700000000000; 1700086400000].
Proof.
  destruct (proj2 (handler_status (Api.Chart twoDayChart))
              (Api.rows twoDayChart) eq_refl) as [c [Hc [Hlen Hdates]]].
  exists c. split; [exact Hc |]. split; [exact Hlen |].
  injection Hc as <-. exact Hdates.
Defined.

Lemma nth_error_last {A : Type} (xs : list A) (dflt : A) :
  xs <> [] -> nth_error xs (length xs - 1) = Some (last xs dflt).
Proof.
  intros Hxs. destruct (exists_last Hxs) as [front [x ->]].
  rewrite last_last, length_app. simpl length.
  replace (length front + 1 - 1)%nat with (length front) by lia.
  rewrite nth_error_app2 by lia. now rewrite Nat.sub_diag.
Qed.

(** The rows of an aligned chart all decode, index by index. *)
Lemma aligned_rows_decode (c : Api.YahooFinanceResponse) :
  alignedChart c ->
  exists series,
    decodeRows (Api.rows c) = Some series /\
    length series = length (Api.timestamp c) /\
    forall i d, nth_error series i = Some d ->
      exists t, nth_error (Api.timestamp c) i = Some t /\
        date d = t * 1000 /\
        nth_error (Api.quote_high c) i = Some (high d) /\
        nth_error (Api.quote_low c) i = Some (low d) /\
        volatility d = (high d - low d)%Q.
Proof.
  intros [Hhigh [Hlow _]].
  assert (Hrow : forall i r, nth_error (Api.rows c) i = Some r ->
            exists t h l,
              nth_error (Api.timestamp c) i = Some t /\
              nth_error (Api.quote_high c) i = Some h /\
              nth_error (Api.quote_low c) i = Some l /\
              r = Api.mkRow (t * 1000) (Some (h - l)%Q) (Some h) (Some l)).
  { intros i r Hr. rewrite rows_nth in Hr.
    destruct (nth_error (Api.timestamp c) i) as [t |] eqn:Ht;
      [| discriminate Hr].
    assert (Hi : (i < length (Api.timestamp c))%nat)
      by (apply nth_error_Some; congruence).
    destruct (nth_error (Api.quote_high c) i) as [h |] eqn:Hh;
      [| apply nth_error_None in Hh; lia].
    destruct (nth_error (Api.quote_low c) i) as [l |] eqn:Hl;
      [| apply nth_error_None in Hl; lia].
    injection Hr as <-. now exists t, h, l. }
  destruct (decodeRows_all (Api.rows c)) as [series Hdec].
  { intros r Hin. apply In_nth_error in Hin. destruct Hin as [i Hi].
    destruct (Hrow i r Hi) as [t [h [l [_ [_ [_ ->]]]]]]. discriminate. }
  exists series. split; [exact Hdec |].
  destruct (decodeRows_nth _ _ Hdec) as [Hlen Hnth].
  split; [now rewrite Hlen, rows_length |].
  intros i d Hd.
  assert (Hi : (i < length (Api.rows c))%nat)
    by (rewrite <- Hlen; apply nth_error_Some; congruence).
  destruct (nth_error (Api.rows c) i) as [r |] eqn:Hr;
    [| apply nth_error_None in Hr; lia].
  destruct (Hnth i r Hr) as [d' [Hd' Hdecode]].
  assert (d' = d) by congruence. subst d'.
  destruct (Hrow i r Hr) as [t [h [l [Ht [Hh [Hl ->]]]]]].
  injection Hdecode as <-. exists t. repeat split; assumption.
Qed.

(** On a chart whose three arrays have one length (and whose timestamps
    are dates) the route answers 200 and every row reaches the component
    as an observation: one per timestamp, pairing the timestamp with the
    high and the low of the same index, with volatility = high - low --
    negative exactly when high < low, since nothing is clamped. *)
Theorem handler_aligned (c : Api.YahooFinanceResponse) :
  alignedChart c ->
  exists series,
    Api.handler (Api.Chart c) = Api.Status200 (Api.rows c) /\
    deliver (Api.handler (Api.Chart c)) = Some (Parsed (Some series)) /\
    length series = length (Api.timestamp c) /\
    forall i d, nth_error series i = Some d ->
      nth_error (Api.timestamp c) i = Some (date d / 1000) /\
      nth_error (Api.quote_high c) i = Some (high d) /\
      nth_error (Api.quote_low c) i = Some (low d) /\
      volatility d = (high d - low d)%Q /\
      ((volatility d < 0)%Q <-> (high d < low d)%Q).
Proof.
  intros Haligned.
  destruct (aligned_rows_decode c Haligned) as [series [Hdec [Hlen Hnth]]].
  destruct Haligned as [_ [_ Hvalid]].
  assert (Hok : Api.handler (Api.Chart c) = Api.Status200 (Api.rows c))
    by (unfold Api.handler; now rewrite Hvalid).
  exists series. split; [exact Hok |].
  split; [rewrite Hok; unfold deliver; cbn [Api.body_data]; now rewrite Hdec |].
  split; [exact Hlen |].
  intros i d Hd. destruct (Hnth i d Hd) as [t [Ht [Hdate [Hh [Hl Hvol]]]]].
  split; [rewrite Hdate, Z.div_mul by lia; exact Ht |].
  split; [exact Hh |]. split; [exact Hl |]. split; [exact Hvol |].
  rewrite Hvol. unfold number in *. split; intros H; lra.
Qed.

Lemma handler_aligned_witness :
  alignedChart twoDayChart /\
  exists series,
    deliver (Api.handler (Api.Chart twoDayChart)) = Some (Parsed (Some series)) /\
    length series = 2%nat.
Proof.
  assert (Hal : alignedChart twoDayChart) by (repeat split).
  split; [exact Hal |].
  destruct (handler_aligned twoDayChart Hal) as [series [_ [Hdel [Hlen _]]]].
  exists series. split; [exact Hdel | exact Hlen].
Defined.

(** A chart whose price arrays are shorter than its timestamps is not
    rejected: the route still answers 200, and the row of a timestamp
    past the end of the high or the low array carries its date but no
    volatility. *)
Theorem handler_misaligned (c : Api.YahooFinanceResponse) (i : nat) (t : Z) :
  nth_error (Api.timestamp c) i = Some t ->
  (length (Api.quote_high c) <= i \/ length (Api.quote_low c) <= i)%nat ->
  (exists r, nth_error (Api.rows c) i = Some r /\
             Api.row_date r = t * 1000 /\
             Api.row_volatility r = None /\
             Api.decodeRow r = None) /\
  (forallb (fun t' => Api.validTime (t' * 1000)) (Api.timestamp c) = true ->
   Api.handler (Api.Chart c) = Api.Status200 (Api.rows c)).
Proof.
  intros Ht Hshort. split.
  - eexists. rewrite rows_nth, Ht. cbn [option_map].
    split; [reflexivity |]. split; [reflexivity |].
    cbn [Api.row_volatility Api.decodeRow Api.row_high Api.row_low].
    destruct Hshort as [Hh | Hl].
    + apply nth_error_None in Hh. rewrite Hh. now split.
    + apply nth_error_None in Hl. rewrite Hl.
      destruct (nth_error (Api.quote_high c) i); now split.
  - intros Hvalid. unfold Api.handler. now rewrite Hvalid.
Qed.

Lemma handler_misaligned_witness :
  let c := Api.mkChart [1700000000; 1700086400] [100; 110]%Q [90%Q] in
  nth_error (Api.timestamp c) 1 = Some 1700086400 /\
  exists r, nth_error (Api.rows c) 1 = Some r /\
            Api.row_volatility r = None.
Proof.
  intros c.
  assert (Ht : nth_error (Api.timestamp c) 1 = Some 1700086400)
    by reflexivity.
  split; [exact Ht |].
  destruct (proj1 (handler_misaligned c 1 1700086400 Ht
                     (or_intror (le_n 1))))
    as [r [Hr [_ [Hvol _]]]].
  exists r. split; [exact Hr | exact Hvol].
Defined.

(** ** From the upstream chart to the cards *)

(** End to end on a non-empty aligned chart: the component stores one
    observation per timestamp, the current card shows the last high minus
    the last low of the upstream arrays, and last update becomes the
    reading of the fetch. *)
Theorem chart_to_cards (c : Api.YahooFinanceResponse)
    (now created checked : Z) (st : State) :
  alignedChart c ->
  Api.timestamp c <> [] ->
  exists series,
    deliver (Api.handler (Api.Chart c)) = Some (Parsed (Some series)) /\
    let st' := fetchData (Parsed (Some series)) now created checked st in
    data st' = Some series /\
    length series = length (Api.timestamp c) /\
    current (metrics st')
    = (last (Api.quote_high c) 0 - last (Api.quote_low c) 0)%Q /\
    lastUpdateTime st' = now.
Proof.
  intros Haligned Hts.
  destruct (aligned_rows_decode c Haligned) as [series [Hdec [Hlen Hnth]]].
  destruct Haligned as [Hhigh [Hlow Hvalid]].
  exists series. split.
  { unfold Api.handler. rewrite Hvalid. unfold deliver.
    cbn [Api.body_data]. now rewrite Hdec. }
  cbv zeta.
  assert (Hne : series <> []).
  { intros ->. simpl in Hlen. destruct (Api.timestamp c); [congruence |].
    discriminate Hlen. }
  pose (dflt := (mkDailyData 0 0 0 0)%Q).
  pose proof (calculateMetrics_nonempty series dflt Hne) as Hm.
  cbv zeta in Hm.
  unfold fetchData, run_calculateMetrics. rewrite Hm.
  cbn [data metrics lastUpdateTime current setNextUpdateTime
       setLastUpdateTime setMetrics setData].
  split; [reflexivity |]. split; [exact Hlen |]. split; [| reflexivity].
  pose proof (nth_error_last series dflt Hne) as Hlast.
  destruct (Hnth _ _ Hlast) as [t [_ [_ [Hh [Hl Hvol]]]]].
  rewrite Hvol.
  assert (Hhne : Api.quote_high c <> []).
  { intros Heq. rewrite Heq in Hhigh. simpl in Hhigh.
    destruct (Api.timestamp c); [congruence | discriminate Hhigh]. }
  assert (Hlne : Api.quote_low c <> []).
  { intros Heq. rewrite Heq in Hlow. simpl in Hlow.
    destruct (Api.timestamp c); [congruence | discriminate Hlow]. }
  rewrite Hlen, <- Hhigh in Hh. rewrite Hlen, <- Hlow in Hl.
  rewrite (nth_error_last (Api.quote_high c) 0%Q Hhne) in Hh.
  rewrite (nth_error_last (Api.quote_low c) 0%Q Hlne) in Hl.
  injection Hh as <-. injection Hl as <-. reflexivity.
Qed.

Lemma chart_to_cards_witness :
  alignedChart twoDayChart /\ Api.timestamp twoDayChart <> [] /\
  exists series,
    deliver (Api.handler (Api.Chart twoDayChart))
    = Some (Parsed (Some series)) /\
    current (metrics (fetchData (Parsed (Some series)) 0 0 0
                        (initialState 0 0)))
    = (110 - 95)%Q.
Proof.
  assert (Hal : alignedChart twoDayChart) by (repeat split).
  assert (Hts : Api.timestamp twoDayChart <> []) by discriminate.
  split; [exact Hal |]. split; [exact Hts |].
  destruct (chart_to_cards twoDayChart 0 0 0 (initialState 0 0) Hal Hts)
    as [series [Hdel [_ [_ [Hcur _]]]]].
  exists series. split; [exact Hdel | exact Hcur].
Defined.

(** End to end on a failure of the route: whenever the route answers
    500, the component parses the error body, stores [undefined] over its
    series and stops before the cards and both update times, which stay
    as they were; from then on [getChartData] throws for every range. *)
Theorem route_failure_breaks_chart (u : Api.Upstream)
    (now created checked : Z) (st : State) :
  Api.handler u = Api.Status500 ->
  exists r,
    deliver (Api.handler u) = Some r /\
    let st' := fetchData r now created checked st in
    data st' = None /\
    metrics st' = metrics st /\
    lastUpdateTime st' = lastUpdateTime st /\
    nextUpdateTime st' = nextUpdateTime st /\
    forall timeRange, getChartData timeRange st' = None.
Proof.
  intros H500. exists (Parsed None). rewrite H500.
  split; [reflexivity |]. cbv zeta. repeat split.
Qed.

Lemma route_failure_breaks_chart_witness :
  Api.handler Api.RequestFailed = Api.Status500 /\
  exists r,
    deliver (Api.handler Api.RequestFailed) = Some r /\
    getChartData Range30d (fetchData r 0 0 0 threeDayState) = None.
Proof.
  assert (H500 : Api.handler Api.RequestFailed = Api.Status500)
    by reflexivity.
  split; [exact H500 |].
  destruct (route_failure_breaks_chart Api.RequestFailed 0 0 0
              threeDayState H500) as [r [Hdel [_ [_ [_ [_ Hchart]]]]]].
  exists r. split; [exact Hdel | exact (Hchart Range30d)].
Defined.
